(** * kgtk zconcat: a shallow embedding of [kgtk/cli/zconcat.py]

    The module concatenates plain and gzip/bzip2/xz-compressed inputs by
    building, for every input, a short chain of prebaked [sh] commands
    and running the chains one after the other.

    Conventions of the embedding:
    - Python [bytes] are Rocq [string]s (sequences of 8-bit characters);
    - a Python [str] is represented by its UTF-8 encoding, so [decode()]
      checks the encoding and keeps the bytes;
    - effects (standard input, the file system, Python list objects, the
      commands launched through [sh]) live in a [World] threaded by a
      state-and-exception monad; the state survives a raised exception;
    - what external programs do ([file], the spawned filters, [mkstemp]'s
      choice of a name) is a parameter [Env] of the development. *)

From Stdlib Require Import ZArith NArith String Ascii List Bool Lia.
From stdpp Require Import base option list gmap strings.
Import ListNotations.

Local Open Scope string_scope.
Local Open Scope list_scope.
Set Warnings "-register-all".

(** ** Python values used by the module *)

Module Py.

(** [bytes.split()] separates on runs of ASCII whitespace:
    space, [\t], [\n], [\v], [\f], [\r]. *)
Definition is_space (c : ascii) : bool :=
  let n := nat_of_ascii c in
  Nat.eqb n 32 || (Nat.leb 9 n && Nat.leb n 13).

Definition lower_char (c : ascii) : ascii :=
  let n := nat_of_ascii c in
  if Nat.leb 65 n && Nat.leb n 90 then ascii_of_nat (n + 32) else c.

(** [bytes.lower()]: only ASCII upper-case letters change. *)
Fixpoint lower (s : string) : string :=
  match s with
  | EmptyString => EmptyString
  | String c r => String (lower_char c) (lower r)
  end.

(** [bytes.split()] with no argument; [cur] is the word being read. *)
Fixpoint split_from (cur : string) (s : string) : list string :=
  match s with
  | EmptyString => if String.eqb cur "" then [] else [cur]
  | String c r =>
      if is_space c
      then (if String.eqb cur "" then split_from "" r
            else cur :: split_from "" r)
      else split_from (cur +:+ String c "") r
  end.

Definition split (s : string) : list string := split_from "" s.

(** Strict UTF-8 well-formedness, as checked by [bytes.decode()]. *)
Definition cont (b : N) : bool := (128 <=? b)%N && (b <=? 191)%N.

Definition second3 (b0 b1 : N) : bool :=
  if (b0 =? 224)%N then (160 <=? b1)%N && (b1 <=? 191)%N
  else if (b0 =? 237)%N then (128 <=? b1)%N && (b1 <=? 159)%N
  else cont b1.

Definition second4 (b0 b1 : N) : bool :=
  if (b0 =? 240)%N then (144 <=? b1)%N && (b1 <=? 191)%N
  else if (b0 =? 244)%N then (128 <=? b1)%N && (b1 <=? 143)%N
  else cont b1.

Fixpoint utf8_valid (bs : list N) : bool :=
  match bs with
  | [] => true
  | b0 :: t0 =>
    if (b0 <? 128)%N then utf8_valid t0
    else
      match t0 with
      | [] => false
      | b1 :: t1 =>
        if (194 <=? b0)%N && (b0 <=? 223)%N then cont b1 && utf8_valid t1
        else
          match t1 with
          | [] => false
          | b2 :: t2 =>
            if (224 <=? b0)%N && (b0 <=? 239)%N
            then second3 b0 b1 && cont b2 && utf8_valid t2
            else
              match t2 with
              | [] => false
              | b3 :: t3 =>
                  (240 <=? b0)%N && (b0 <=? 244)%N && second4 b0 b1
                  && cont b2 && cont b3 && utf8_valid t3
              end
          end
      end
  end.

Definition byte_values (s : string) : list N :=
  map N_of_ascii (list_ascii_of_string s).

(** Exception classes met by the module.  [ErrorReturnCode n] and
    [SignalException s] are the families [sh.ErrorReturnCode_<n>] and
    [sh.SignalException_<name>]; [KeyboardInterrupt] and [SystemExit]
    derive from [BaseException] only. *)
Inductive ExcClass :=
  | IndexError
  | UnicodeDecodeError
  | AttributeError
  | TypeError
  | OSError
  | ErrorReturnCode (code : Z)
  | SignalException (signum : Z)
  | KGTKException
  | KeyboardInterrupt
  | SystemExit.

#[global] Instance ExcClass_eq_dec : EqDecision ExcClass.
Proof. solve_decision. Defined.

(** An exception object: its class and [str(e)]. *)
Record Exc := mkExc { exc_class : ExcClass; exc_str : string }.

#[global] Instance Exc_eq_dec : EqDecision Exc.
Proof. solve_decision. Defined.

(** [isinstance(e, Exception)] *)
Definition is_Exception (c : ExcClass) : bool :=
  match c with
  | KeyboardInterrupt | SystemExit => false
  | _ => true
  end.

Definition SIGPIPE : Z := 13.

(** [isinstance(e, sh.SignalException_SIGPIPE)] *)
Definition is_SIGPIPE (c : ExcClass) : bool :=
  match c with
  | SignalException s => (s =? SIGPIPE)%Z
  | _ => false
  end.

Inductive Outcome (A : Type) :=
  | Ok (a : A)
  | Raise (e : Exc).
Arguments Ok {A} a.
Arguments Raise {A} e.

(** [l[0]] *)
Definition index0 (l : list string) : Outcome string :=
  match l with
  | x :: _ => Ok x
  | [] => Raise (mkExc IndexError "list index out of range")
  end.

(** [b.decode()]; the message of the error is abbreviated. *)
Definition decode (b : string) : Outcome string :=
  if utf8_valid (byte_values b) then Ok b
  else Raise (mkExc UnicodeDecodeError "'utf-8' codec can't decode bytes").

(** [x or y] on optional strings: [None] and [''] are false. *)
Definition truthy (x : option string) : option string :=
  match x with
  | Some s => if String.eqb s "" then None else Some s
  | None => None
  end.

(** [b[:n]] and [b[n:]] for a count [n]. *)
Fixpoint bytes_take (n : nat) (s : string) : string :=
  match n, s with
  | S k, String c r => String c (bytes_take k r)
  | _, _ => EmptyString
  end.

Fixpoint bytes_drop (n : nat) (s : string) : string :=
  match n, s with
  | S k, String _ r => bytes_drop k r
  | _, _ => s
  end.

(** What [readline()] returns on a buffered binary stream and what it
    leaves unread: the bytes up to and including the first newline, or
    everything when there is none ([b''] at end of file). *)
Fixpoint readline_split (s : string) : string * string :=
  match s with
  | EmptyString => (EmptyString, EmptyString)
  | String c r =>
      if Nat.eqb (nat_of_ascii c) 10 then (String c EmptyString, r)
      else let '(l, r') := readline_split r in (String c l, r')
  end.

(** Number of lines of a byte sequence, a last line without newline
    included. *)
Fixpoint count_lines_from (in_line : bool) (s : string) : nat :=
  match s with
  | EmptyString => if in_line then 1 else 0
  | String c r =>
      if Nat.eqb (nat_of_ascii c) 10 then S (count_lines_from false r)
      else count_lines_from true r
  end.

Definition count_lines (s : string) : nat := count_lines_from false s.

Definition newline : string := String (ascii_of_nat 10) EmptyString.

(** Values a function of the module returns to the command line. *)
Inductive Val :=
  | VNone
  | VInt (z : Z).

End Py.
Import Py.


(** ** The world the module acts on *)

(** [sys.stdin.buffer] is the one live stream of the module. *)
Inductive Stream :=
  | SysStdinBuffer.

(** A file object returned by [open(name, mode)]; [f_id] tells apart
    two objects opened on the same name. *)
Record FileObject := mkFile { f_name : string; f_mode : string; f_id : nat }.

(** What an [_out=] argument can be. *)
Inductive Sink :=
  | SysStdoutBuffer
  | OpenFile (f : FileObject).

(** The two [_done] callbacks of the module:
    [lambda cmd, status, exit_code: sh.rm('-f', temp)] and
    [lambda cmd, status, exit_code: outfile and outfile.close()]. *)
Inductive Done :=
  | RemoveTemp (temp : string)
  | CloseOutfile (outfile : option FileObject).

(** A prebaked [sh] command: [getattr(sh, program)] baked with positional
    arguments and keywords.
    A keyword that is absent and one that is passed as [None] are both
    [None]; [_piped] and [_bg] are read with [.get(.., False)]. *)
Record Command := mkCommand {
  program : string;
  arguments : list string;
  kw_in : option Stream;
  kw_in_bufsize : option Z;
  kw_out : option Sink;
  kw_out_bufsize : option Z;
  kw_tty_out : option bool;
  kw_done : option Done;
  kw_piped : bool;
  kw_bg : bool
}.

(** The object a call of a command returns: the command, the exit code
    of its process (negative: ended by that signal) and the running
    command given as its standard input, if any. *)
Inductive RunningCommand :=
  | Running (cmd : Command) (exit_code : Z) (stdin_process : option RunningCommand).

Definition running_exit_code (r : RunningCommand) : Z :=
  match r with Running _ c _ => c end.

Definition running_command (r : RunningCommand) : Command :=
  match r with Running c _ _ => c end.

(** The part of the world external processes share with the module. *)
Record OS := mkOS {
  stdin : string;                    (* unread bytes of standard input *)
  files : gmap string string         (* file name -> content *)
}.

Record World := mkWorld {
  os : OS;
  lists : gmap nat (list string);    (* Python list objects; absent = empty *)
  opened : list FileObject;          (* file objects made by open(), oldest first *)
  launched : list Command;           (* commands called through sh, oldest first *)
  flushes : nat                      (* calls of sys.stdout.flush() *)
}.

Definition set_os (o : OS) (w : World) : World :=
  mkWorld o (lists w) (opened w) (launched w) (flushes w).

(** The argument of [determine_file_type]: a file name or the stream
    [io.BytesIO(header)]. *)
Inductive FileArg :=
  | FileName (name : string)
  | FileBytesIO (content : string).

(** How a spawned process ends: it exits, or the call is cut short by
    an exception of the interpreter (an interrupt, a failed fork). *)
Inductive ProcOutcome :=
  | Exited (exit_code : Z)
  | Interrupted (e : Exc).

(** What the module does not decide. *)
Record Env := mkEnv {
  (* stdout of [file --brief] on a name or on the bytes of a stream *)
  file_brief : OS -> FileArg -> string;
  (* whether [sh.ls.bake(_out=, _out_bufsize=2**16, _tty_out=, _piped=)] is accepted *)
  bake_accepts : option Sink -> bool -> bool -> bool;
  (* [str(e)] of the [TypeError] with which sh refuses
     [sh.cat.bake(.., _in=stream, _in_bufsize=n, _piped=True, _done=..)],
     when it refuses it; [None] when the bake is accepted *)
  bake_in_refused : Stream -> Z -> option string;
  (* the random part of the name [mkstemp] picks *)
  mkstemp_suffix : OS -> string -> string;
  (* the process of a command, given the running command piped into it *)
  spawn : Command -> option RunningCommand -> OS -> ProcOutcome * OS;
  (* [str(e)] of the exception sh builds for a command and an exit code *)
  sh_message : Command -> Z -> string
}.

(** ** State and exceptions *)

Definition M (A : Type) : Type := World -> Outcome A * World.

#[global] Instance M_ret : MRet M := fun A a w => (Ok a, w).

#[global] Instance M_bind : MBind M := fun A B f m w =>
  match m w with
  | (Ok a, w') => f a w'
  | (Raise e, w') => (Raise e, w')
  end.

Definition raise {A} (e : Exc) : M A := fun w => (Raise e, w).

Definition lift {A} (o : Outcome A) : M A := fun w => (o, w).

(** [try: body / except ...]: [handler e] is the clause that matches
    [e], if one does; otherwise [e] propagates. *)
Definition try_except {A} (body : M A) (handler : Exc -> option (M A)) : M A :=
  fun w =>
    match body w with
    | (Ok a, w') => (Ok a, w')
    | (Raise e, w') =>
        match handler e with
        | Some h => h w'
        | None => (Raise e, w')
        end
    end.

(** ** Primitives of Python and of [sh] *)

Definition read_list (l : nat) : M (list string) :=
  fun w => (Ok (default [] (lists w !! l)), w).

(** [lst.append(x)] *)
Definition list_append (l : nat) (x : string) : M unit :=
  fun w => (Ok tt,
            mkWorld (os w) (<[l := default [] (lists w !! l) ++ [x]]> (lists w))
                    (opened w) (launched w) (flushes w)).

(** [open(name, mode)] for the modes of the module: ['wb'] truncates or
    creates, ['ab'] creates when the file is missing. *)
Definition py_open (name mode : string) : M FileObject :=
  fun w =>
    let f := mkFile name mode (length (opened w)) in
    let fs := files (os w) in
    let fs' :=
      if String.eqb mode "wb" then <[name := ""]> fs
      else if String.eqb mode "ab" then
        match fs !! name with Some _ => fs | None => <[name := ""]> fs end
      else fs in
    (Ok f, mkWorld (mkOS (stdin (os w)) fs') (lists w) (opened w ++ [f])
                   (launched w) (flushes w)).

(** [with open(name, 'wb') as out: out.write(data)] *)
Definition write_file (name data : string) : M unit :=
  fun w => (Ok tt, set_os (mkOS (stdin (os w)) (<[name := data]> (files (os w)))) w).

(** [stream.read(n)] *)
Definition stream_read (stream : Stream) (n : nat) : M string :=
  fun w =>
    match stream with
    | SysStdinBuffer =>
        (Ok (bytes_take n (stdin (os w))),
         set_os (mkOS (bytes_drop n (stdin (os w))) (files (os w))) w)
    end.

(** [stream.readline()]; a buffered binary stream never returns [None]. *)
Definition stream_readline (stream : Stream) : M (option string) :=
  fun w =>
    match stream with
    | SysStdinBuffer =>
        let '(l, r) := readline_split (stdin (os w)) in
        (Ok (Some l), set_os (mkOS r (files (os w))) w)
    end.

(** [sys.stdout.flush()] *)
Definition sys_stdout_flush : M unit :=
  fun w => (Ok tt, mkWorld (os w) (lists w) (opened w) (launched w) (S (flushes w))).

(** sh's rule for the exit code of a finished process, with the default
    [_ok_code=0]: [sigpipe_ok] is the command's [_piped]. *)
Definition SIGNALS_THAT_SHOULD_THROW_EXCEPTION : list Z :=
  [6; 7; 8; 4; 2; 9; 13; 3; 11; 15; 31]%Z.

Definition exit_code_raises (exit_code : Z) (sigpipe_ok : bool) : bool :=
  let success := (exit_code =? 0)%Z in
  let bad_sig := bool_decide ((- exit_code)%Z ∈ SIGNALS_THAT_SHOULD_THROW_EXCEPTION) in
  if sigpipe_ok && (- exit_code =? SIGPIPE)%Z then false
  else negb success || bad_sig.

(** [sh.get_rc_exc]: the class raised for an exit code. *)
Definition get_rc_exc (rc : Z) : ExcClass :=
  if (0 <? rc)%Z then ErrorReturnCode rc else SignalException (- rc).

(** ** The module *)

Section Zconcat.

Variable E : Env.

Definition tmp_dir : string := "/tmp".

(** [tempfile.mkstemp(dir=tmp_dir, prefix=prefix)[1]]: an empty file
    with a new name under [tmp_dir] is created and its name returned. *)
Definition make_temp_file (prefix : string) : M string :=
  fun w =>
    let name := tmp_dir +:+ "/" +:+ prefix +:+ mkstemp_suffix E (os w) prefix in
    (Ok name, set_os (mkOS (stdin (os w)) (<[name := ""]> (files (os w)))) w).

(** The [try] around [sh.ls.bake] either keeps [out_bufsize] or sets
    it to [None]. *)
Definition get_buf_sizes (output : option Sink) (_tty_out _piped : bool)
  : Z * option Z :=
  let in_bufsize := (2 ^ 16)%Z in
  let out_bufsize :=
    if bake_accepts E output _tty_out _piped then Some in_bufsize else None in
  (in_bufsize, out_bufsize).

(** The loop [for i in range(n): line = stream.readline(); ...]. *)
Fixpoint read_lines (stream : Stream) (n : nat) (header : string) : M string :=
  match n with
  | O => mret header
  | S k =>
      line ← stream_readline stream;
      match line with
      | None => mret header
      | Some l => read_lines stream k (header +:+ l)
      end
  end.

(** With [preserve], the second component is the command sequence;
    without, only the header is returned.  The bake of the replaying
    [cat] is not inside a [try]: when [sh] refuses it, its [TypeError]
    leaves the function, after the probe was read and the temporary
    file written. *)
Definition get_stream_header (stream : Stream) (n : nat) (unit : string)
    (preserve : bool) : M (string * option (list Command)) :=
  header ← (if String.eqb unit "line" then read_lines stream n ""
            else stream_read stream n);
  if preserve then
    temp ← make_temp_file "kgtk-header.";
    write_file temp header;;
    let cleanup := RemoveTemp temp in
    let '(in_bufsize, out_bufsize) := get_buf_sizes None false true in
    (* this bake is not inside a [try] *)
    match bake_in_refused E stream in_bufsize with
    | Some msg => raise (mkExc TypeError msg)
    | None =>
        mret (header,
              Some [mkCommand "cat" [temp; "-"] (Some stream) (Some in_bufsize)
                              None None None (Some cleanup) true false])
    end
  else mret (header, None).

(** Waiting on a running command: sh checks its exit code, then waits
    on the command piped into it.  The result is the exception raised,
    if any. *)
Fixpoint wait (r : RunningCommand) : option Exc :=
  match r with
  | Running cmd exit_code stdin_process =>
      if exit_code_raises exit_code (kw_piped cmd)
      then Some (mkExc (get_rc_exc exit_code) (sh_message E cmd exit_code))
      else match stdin_process with
           | Some up => wait up
           | None => None
           end
  end.

(** Calling a prebaked command, [cmd(piped_output)] or [cmd()]: the
    process is spawned; a command baked with [_piped] or [_bg] is
    returned at once, any other is waited on first. *)
Definition sh_call (cmd : Command) (piped_input : option RunningCommand)
  : M RunningCommand :=
  fun w =>
    let w1 := mkWorld (os w) (lists w) (opened w) (launched w ++ [cmd]) (flushes w) in
    match spawn E cmd piped_input (os w) with
    | (Interrupted e, o) => (Raise e, set_os o w1)
    | (Exited exit_code, o) =>
        let r := Running cmd exit_code piped_input in
        if kw_piped cmd || kw_bg cmd then (Ok r, set_os o w1)
        else match wait r with
             | Some e => (Raise e, set_os o w1)
             | None => (Ok r, set_os o w1)
             end
    end.

(** The loop of [run_sh_commands] with its two variables. *)
Fixpoint run_sh_loop (commands : list Command)
    (piped_output last_cmd : option RunningCommand) : M (option RunningCommand) :=
  match commands with
  | [] => mret last_cmd
  | cmd :: rest =>
      r ← sh_call cmd piped_output;
      run_sh_loop rest
        (if negb (kw_piped cmd || kw_bg cmd) then None else Some r)
        (Some r)
  end.

(** [commands] is a list here, as [build_command] returns one. *)
Definition run_sh_commands (commands : list Command) : M (option RunningCommand) :=
  run_sh_loop commands None None.

(** [sh.file(...).stdout.split()[0].lower().decode()] *)
Definition determine_file_type (file : FileArg) : M string :=
  fun w =>
    let file_type := file_brief E (os w) file in
    (match index0 (Py.split file_type) with
     | Ok word => decode (Py.lower word)
     | Raise e => Raise e
     end, w).

Definition compression_type_table : gmap string (gmap string string) :=
  {[ "gzip" := {[ "cat" := "zcat"; "compress" := "gzip" ]};
     "bzip2" := {[ "cat" := "bzcat"; "compress" := "bzip2" ]};
     "xz" := {[ "cat" := "xzcat"; "compress" := "xz" ]};
     "text" := {[ "cat" := "cat" ]} ]}.

(** The result stands for [getattr(sh, catcmd)], the command of that name. *)
Definition get_cat_command (file_type : string) : string :=
  default "cat" (default ∅ (compression_type_table !! file_type) !! "cat").

(** [compress and getattr(sh, compress) or None] *)
Definition get_compress_command (file_type : string) : option string :=
  truthy (default ∅ (compression_type_table !! file_type) !! "compress").

Definition compress_switch_to_file_type (gz bz2 xz : bool) : string :=
  if gz then "gzip" else if bz2 then "bzip2" else if xz then "xz" else "text".

Definition build_command_1 (input output : option string) (gz bz2 xz _piped : bool)
    (_out_mode : string) : M (list Command) :=
  let input := default "-" (truthy input) in
  (* output = (not _piped and (output or sys.stdout.buffer)) or None *)
  let output : option (string + Sink) :=
    if negb _piped
    then Some (match truthy output with
               | Some name => inl name
               | None => inr SysStdoutBuffer
               end)
    else None in
  '(outfile, output) ←
    match output with
    | Some (inl name) =>
        f ← py_open name _out_mode; mret (Some f, Some (OpenFile f))
    | Some (inr s) => mret (None, Some s)
    | None => mret (None, None)
    end;
  let compress := get_compress_command (compress_switch_to_file_type gz bz2 xz) in
  let '(in_bufsize, out_bufsize) :=
    get_buf_sizes output (negb (bool_decide (is_Some compress))) _piped in
  if String.eqb input "-" then
    '(header, input) ← get_stream_header SysStdinBuffer 1024 "byte" true;
    let input := default [] input in
    file_type ← determine_file_type (FileBytesIO header);
    let catcmd := get_cat_command file_type in
    let cleanup := CloseOutfile outfile in
    match compress with
    | Some compress =>
        mret (input ++
              [ mkCommand catcmd [] None None None None None None true false;
                mkCommand compress ["-c"] None None output out_bufsize
                          (Some false) (Some cleanup) _piped false ])
    | None =>
        mret (input ++
              [ mkCommand catcmd [] None None output out_bufsize
                          None (Some cleanup) _piped false ])
    end
  else
    file_type ← determine_file_type (FileName input);
    let catcmd := get_cat_command file_type in
    let cleanup := CloseOutfile outfile in
    match compress with
    | Some compress =>
        mret [ mkCommand catcmd [input] None None None None None None true false;
               mkCommand compress ["-c"] None None output out_bufsize
                         (Some false) (Some cleanup) _piped false ]
    | None =>
        mret [ mkCommand catcmd [input] None None output out_bufsize
                         None (Some cleanup) _piped false ]
    end.

(** The loop of [build_command] with its two variables. *)
Fixpoint build_command_loop (inputs : list string) (output : option string)
    (gz bz2 xz : bool) (out_mode : string) (command : list Command)
  : M (list Command) :=
  match inputs with
  | [] => mret command
  | inp :: rest =>
      cs ← build_command_1 (Some inp) output gz bz2 xz false out_mode;
      build_command_loop rest output gz bz2 xz "ab" (command ++ cs)
  end.

(** The list object a [def] evaluates once for [inputs=[]]. *)
Definition build_command_default_inputs : nat := 0.
Definition run_default_inputs : nat := 1.

(** [inputs] is the list object passed, [None] when the argument is
    left out. *)
Definition build_command (inputs : option nat) (output : option string)
    (gz bz2 xz : bool) : M (list Command) :=
  let inputs := default build_command_default_inputs inputs in
  l ← read_list inputs;
  (if Nat.eqb (length l) 0 then list_append inputs "-" else mret tt);;
  l ← read_list inputs;
  build_command_loop l output gz bz2 xz "wb" [].

(** [last_cmd.exit_code] *)
Definition exit_code_of (last_cmd : option RunningCommand) : M Val :=
  match last_cmd with
  | Some r => mret (VInt (running_exit_code r))
  | None => raise (mkExc AttributeError
                         "'NoneType' object has no attribute 'exit_code'")
  end.

Definition run (inputs : option nat) (output : option string) (gz bz2 xz : bool)
  : M Val :=
  let inputs := default run_default_inputs inputs in
  try_except
    (commands ← build_command (Some inputs) output gz bz2 xz;
     last_cmd ← run_sh_commands commands;
     exit_code_of last_cmd)
    (fun e =>
       if is_SIGPIPE (exc_class e)
       then Some (sys_stdout_flush;; mret VNone)
       else if is_Exception (exc_class e)
       then Some (raise (mkExc KGTKException
                               ("INTERNAL ERROR: " +:+ exc_str e +:+ newline)))
       else None).

End Zconcat.

(** ** Vocabulary of the specification *)

(** The three steps of [build_command_1], named so that statements can
    refer to them: resolving and opening the output, finding the source
    stages and the file type of the input, and baking the stages. *)
Definition open_output (_piped : bool) (output : option string) (_out_mode : string)
  : M (option FileObject * option Sink) :=
  if negb _piped then
    match truthy output with
    | Some name => f ← py_open name _out_mode; mret (Some f, Some (OpenFile f))
    | None => mret (None, Some SysStdoutBuffer)
    end
  else mret (None, None).

Definition sniff (E : Env) (input : string) : M (list Command * string) :=
  if String.eqb input "-" then
    '(header, cmds) ← get_stream_header E SysStdinBuffer 1024 "byte" true;
    file_type ← determine_file_type E (FileBytesIO header);
    mret (default [] cmds, file_type)
  else
    file_type ← determine_file_type E (FileName input);
    mret ([], file_type).

Definition decode_stage (E : Env) (input file_type : string) (compress : option string)
    (outfile : option FileObject) (output : option Sink) (_piped : bool) : Command :=
  let args := if String.eqb input "-" then [] else [input] in
  match compress with
  | Some _ =>
      mkCommand (get_cat_command file_type) args None None None None None None true false
  | None =>
      mkCommand (get_cat_command file_type) args None None output
                (snd (get_buf_sizes E output true _piped))
                None (Some (CloseOutfile outfile)) _piped false
  end.

Definition encode_stages (E : Env) (compress : option string)
    (outfile : option FileObject) (output : option Sink) (_piped : bool)
  : list Command :=
  match compress with
  | Some c =>
      [ mkCommand c ["-c"] None None output
                  (snd (get_buf_sizes E output false _piped))
                  (Some false) (Some (CloseOutfile outfile)) _piped false ]
  | None => []
  end.

(** The file type an input is sniffed as while its pipeline is built. *)
Definition sniffed (E : Env) (input output : option string) (_piped : bool)
    (_out_mode : string) (w : World) : Outcome string :=
  match (open_output _piped output _out_mode;;
         sniff E (default "-" (truthy input))) w with
  | (Ok (_, file_type), _) => Ok file_type
  | (Raise e, _) => Raise e
  end.

(** The spec's format Text: the token [text] and every token the table
    does not know. *)
Definition is_text (file_type : string) : bool :=
  negb (bool_decide (file_type ∈ ["gzip"; "bzip2"; "xz"])).

(** A decode stage is a stage running one of the table's [cat] commands
    on the source; the stage that replays standard input (it alone has
    [_in]) is the source itself. *)
Definition is_decode_stage (c : Command) : bool :=
  bool_decide (program c ∈ ["cat"; "zcat"; "bzcat"; "xzcat"])
  && negb (bool_decide (is_Some (kw_in c))).

Definition is_encode_stage (c : Command) : bool :=
  bool_decide (program c ∈ ["gzip"; "bzip2"; "xz"]).

Definition decode_stages (cs : list Command) : list Command :=
  filter (fun c => is_decode_stage c = true) cs.

Definition encode_stages_of (cs : list Command) : list Command :=
  filter (fun c => is_encode_stage c = true) cs.

(** The open modes of the file objects a plan writes to, in plan order. *)
Definition sink_modes (cs : list Command) : list string :=
  omap (fun c => match kw_out c with
                 | Some (OpenFile f) => Some (f_mode f)
                 | _ => None
                 end) cs.

(** [cat] as a filter: what it writes given the files, its arguments
    and its standard input; a missing file contributes nothing. *)
Fixpoint cat_arguments (fs : gmap string string) (args : list string)
    (input : string) : string :=
  match args with
  | [] => ""
  | a :: rest =>
      if String.eqb a "-" then input +:+ cat_arguments fs rest ""
      else default "" (fs !! a) +:+ cat_arguments fs rest input
  end.

Definition cat_stdout (o : OS) (c : Command) : string :=
  let input := match kw_in c with
               | Some SysStdinBuffer => stdin o
               | None => ""
               end in
  match arguments c with
  | [] => input
  | args => cat_arguments (files o) args input
  end.

(** The size of a probe in the unit it was read in. *)
Definition probe_units (unit : string) (header : string) : nat :=
  if String.eqb unit "line" then count_lines header else String.length header.

(** What [n] calls of [readline] return, joined, and what they leave
    unread. *)
Fixpoint take_lines (n : nat) (s : string) : string * string :=
  match n with
  | O => ("", s)
  | S k =>
      let '(l, r) := readline_split s in
      let '(h, r') := take_lines k r in
      (l +:+ h, r')
  end.

(** What reading [n] units leaves: the probe and the unread rest. *)
Definition probe (n : nat) (unit : string) (s : string) : string * string :=
  if String.eqb unit "line" then take_lines n s
  else (bytes_take n s, bytes_drop n s).

(** The commands of the pipe that ends in a running command, upstream
    first: the command itself after those piped into it. *)
Fixpoint pipe_chain (r : RunningCommand) : list Command :=
  match r with
  | Running cmd _ stdin_process =>
      match stdin_process with
      | Some up => pipe_chain up
      | None => []
      end ++ [cmd]
  end.

Definition pipe_chain_of (r : option RunningCommand) : list Command :=
  match r with
  | Some up => pipe_chain up
  | None => []
  end.

(** The positional arguments the decode stage of an input is baked with:
    the file name, or none when the input stands for standard input
    ([input or '-'] is ['-']). *)
Definition source_arguments (inp : string) : list string :=
  let input := default "-" (truthy (Some inp)) in
  if String.eqb input "-" then [] else [input].

(** The open modes the loop of [build_command] passes for [n] inputs. *)
Definition write_modes (n : nat) : list string :=
  match n with
  | O => []
  | S k => "wb" :: repeat "ab" k
  end.

(** The file objects opened by one [build_command_1]: one on the output
    when it is a file name, none otherwise; this holds whether or not
    the build then raises. *)
Definition opens_of (_piped : bool) (output : option string) (_out_mode : string)
    (w : World) : list FileObject :=
  if _piped then []
  else match truthy output with
       | Some name => [mkFile name _out_mode (length (opened w))]
       | None => []
       end.

(** The world in which the list object [l] holds [xs]. *)
Definition set_list (l : nat) (xs : list string) (w : World) : World :=
  mkWorld (os w) (<[l := xs]> (lists w)) (opened w) (launched w) (flushes w).

(** The body of the [try] statement of [run], for the list object [l]. *)
Definition run_body (E : Env) (l : nat) (output : option string)
    (gz bz2 xz : bool) : M Val :=
  commands ← build_command E (Some l) output gz bz2 xz;
  last_cmd ← run_sh_commands E commands;
  exit_code_of last_cmd.

(** The world after one more [sys.stdout.flush()]. *)
Definition flushed (w : World) : World :=
  mkWorld (os w) (lists w) (opened w) (launched w) (S (flushes w)).

(** Every byte of [s] satisfies [p]. *)
Fixpoint all_chars (p : ascii -> bool) (s : string) : bool :=
  match s with
  | EmptyString => true
  | String c r => p c && all_chars p r
  end.

Definition not_space (c : ascii) : bool := negb (is_space c).

Definition is_ascii (c : ascii) : bool := (N_of_ascii c <? 128)%N.

(** ** Sample environments, for concrete runs *)

Definition gzip_magic : string :=
  String (ascii_of_nat 31) (String (ascii_of_nat 139) EmptyString).

Definition xz_magic : string := String (ascii_of_nat 253) "7zXZ".

(** A small stand-in for [file --brief]: it looks at the leading bytes. *)
Definition sample_magic (content : string) : string :=
  if String.eqb content "" then "empty"
  else if String.prefix gzip_magic content then "gzip compressed data, from Unix"
  else if String.prefix "BZh" content then "bzip2 compressed data, block size = 900k"
  else if String.prefix xz_magic content then "XZ compressed data"
  else "ASCII text".

Definition sample_file_brief (o : OS) (a : FileArg) : string :=
  match a with
  | FileBytesIO content => sample_magic content
  | FileName name =>
      match files o !! name with
      | Some content => sample_magic content
      | None => "cannot open `" +:+ name +:+ "' (No such file or directory)"
      end
  end.

(** An environment whose processes end as [status] says and leave the
    files alone. *)
Definition sample_env (status : Command -> ProcOutcome) : Env :=
  mkEnv sample_file_brief
        (fun _ _ _ => true)
        (fun _ _ => None)
        (fun _ _ => "x7k2p9")
        (fun c _ o => (status c, o))
        (fun c code => "RAN: " +:+ program c).

Definition all_exit_0 (c : Command) : ProcOutcome := Exited 0.

(** A world with the given standard input and files, where the list
    object [2] holds [inputs] and the default lists are empty. *)
Definition sample_world (input : string) (fs : gmap string string)
    (inputs : list string) : World :=
  mkWorld (mkOS input fs) {[ 2 := inputs ]} [] [] 0.

(** Files and statuses for the concrete runs. *)
Definition sample_files : gmap string string :=
  {[ "notes.txt" := "hello world";
     "a.gz" := gzip_magic +:+ "not really deflate";
     "b.txt" := "line3" ]}.

(** Every [zcat] exits with status 1, every other process with 0. *)
Definition zcat_fails (c : Command) : ProcOutcome :=
  if String.eqb (program c) "zcat" then Exited 1 else Exited 0.

(** The stage that writes to the output is ended by SIGPIPE. *)
Definition writer_sigpipe (c : Command) : ProcOutcome :=
  if kw_piped c then Exited 0 else Exited (-13).

(** The user interrupts the first process that is waited on. *)
Definition interrupted (c : Command) : ProcOutcome :=
  Interrupted (mkExc KeyboardInterrupt "").

Definition sample_E : Env := sample_env all_exit_0.

(** The same environment with an [sh] that refuses an input buffer size
    for a stream given as [_in]; the message stands for the text of
    its [TypeError]. *)
Definition bake_refusal : string := "Invalid special arguments".

Definition refusing_E : Env :=
  mkEnv sample_file_brief
        (fun _ _ _ => true)
        (fun _ _ => Some bake_refusal)
        (fun _ _ => "x7k2p9")
        (fun c _ o => (all_exit_0 c, o))
        (fun c code => "RAN: " +:+ program c).

(** Standard input holds a line of text; the list object [2] names a
    gzip file and a text file. *)
Definition sample_w : World :=
  sample_world "stdin text" sample_files ["a.gz"; "b.txt"].

(** The same, with an empty list object [2]. *)
Definition sample_w_empty : World :=
  sample_world "stdin text" sample_files [].

(** The pipeline of the text file [notes.txt] without switches. *)
Definition cat_notes : Command :=
  mkCommand "cat" ["notes.txt"] None None (Some SysStdoutBuffer)
            (Some 65536%Z) None (Some (CloseOutfile None)) false false.

(** The two stages of [a.gz] recompressed to standard output. *)
Definition zcat_a : Command :=
  mkCommand "zcat" ["a.gz"] None None None None None None true false.

Definition gzip_c : Command :=
  mkCommand "gzip" ["-c"] None None (Some SysStdoutBuffer) (Some 65536%Z)
            (Some false) (Some (CloseOutfile None)) false false.

(** * Properties *)

Section Properties.

Variable E : Env.

Ltac munfold := unfold mbind, M_bind, mret, M_ret, raise, lift in *.

(** ** Byte sequences *)

Lemma append_cons (c : ascii) (s t : string) :
  String c s +:+ t = String c (s +:+ t).
Proof. reflexivity. Qed.

Lemma append_empty_l (s : string) : "" +:+ s = s.
Proof. reflexivity. Qed.

Lemma append_empty_r (s : string) : s +:+ "" = s.
Proof.
  induction s as [|c s IH]; [reflexivity |]. by rewrite append_cons, IH.
Qed.

Lemma append_assoc (a b c : string) : (a +:+ b) +:+ c = a +:+ (b +:+ c).
Proof.
  induction a as [|x a IH]; [reflexivity |]. by rewrite !append_cons, IH.
Qed.

Lemma bytes_take_drop (n : nat) (s : string) : bytes_take n s +:+ bytes_drop n s = s.
Proof.
  revert s; induction n as [|n IH]; intros [|c s]; simpl; try reflexivity.
  by rewrite append_cons, IH.
Qed.

Lemma bytes_take_length (n : nat) (s : string) : String.length (bytes_take n s) <= n.
Proof.
  revert s; induction n as [|n IH]; intros [|c s]; simpl; try lia.
  specialize (IH s); lia.
Qed.

Lemma bytes_take_short (n : nat) (s : string) :
  String.length s <= n -> bytes_take n s = s /\ bytes_drop n s = "".
Proof.
  revert s; induction n as [|n IH]; intros [|c s]; simpl; intros H;
    try (split; reflexivity); try lia.
  destruct (IH s) as [-> ->]; [lia | done].
Qed.

Lemma readline_split_app (s : string) :
  fst (readline_split s) +:+ snd (readline_split s) = s.
Proof.
  induction s as [|c s IH]; simpl; [reflexivity |].
  destruct (Nat.eqb (nat_of_ascii c) 10); simpl; [reflexivity |].
  destruct (readline_split s) as [l r]; simpl in *.
  by rewrite append_cons, IH.
Qed.

(** A line returned by [readline] either ends in a newline, and then
    counts for one line in front of whatever follows, or it is the
    unterminated end of the stream. *)
Lemma readline_split_count (s : string) (b : bool) (x : string) :
  count_lines_from b (fst (readline_split s) +:+ x) = S (count_lines_from false x)
  \/ (snd (readline_split s) = ""
      /\ forall b', count_lines_from b' (fst (readline_split s)) <= 1).
Proof.
  revert b; induction s as [|c s IH]; intros b; simpl.
  - right; split; [reflexivity | intros []; simpl; lia].
  - destruct (Nat.eqb (nat_of_ascii c) 10) eqn:Hc; simpl.
    + rewrite ?append_cons, ?append_empty_l; simpl. rewrite ?Hc. by left.
    + destruct (readline_split s) as [l r]; simpl in *.
      rewrite ?append_cons; simpl. rewrite ?Hc.
      destruct (IH true) as [H | [H1 H2]]; [by left | right].
      split; [done | intros b'; apply H2].
Qed.

Lemma take_lines_eof (n : nat) : take_lines n "" = ("", "").
Proof. induction n as [|n IH]; simpl; [reflexivity | by rewrite IH]. Qed.

Lemma take_lines_app (n : nat) (s : string) :
  fst (take_lines n s) +:+ snd (take_lines n s) = s.
Proof.
  revert s; induction n as [|n IH]; intros s; simpl; [reflexivity |].
  pose proof (readline_split_app s) as Hs.
  destruct (readline_split s) as [l r]; simpl in Hs.
  specialize (IH r). destruct (take_lines n r) as [h r']; simpl in *.
  by rewrite append_assoc, IH.
Qed.

Lemma take_lines_count (n : nat) (s : string) :
  count_lines (fst (take_lines n s)) <= n.
Proof.
  unfold count_lines. revert s; induction n as [|n IH]; intros s; simpl; [lia |].
  pose proof (readline_split_count s false) as Hc.
  destruct (readline_split s) as [l r]; simpl in Hc.
  specialize (IH r). destruct (take_lines n r) as [h r'] eqn:Hn; simpl in *.
  destruct (Hc h) as [-> | [-> Hl]]; [lia |].
  rewrite take_lines_eof in Hn. injection Hn as <- <-.
  rewrite append_empty_r. specialize (Hl false). lia.
Qed.

(** ** Reading the header of a stream *)

Lemma read_lines_spec (n : nat) (header : string) (w : World) :
  read_lines SysStdinBuffer n header w =
  (Ok (header +:+ fst (take_lines n (stdin (os w)))),
   set_os (mkOS (snd (take_lines n (stdin (os w)))) (files (os w))) w).
Proof.
  revert header w; induction n as [|n IH]; intros header w; simpl.
  - rewrite append_empty_r. by destruct w as [[] ? ? ? ?].
  - munfold. unfold stream_readline.
    destruct (readline_split (stdin (os w))) as [l r] eqn:Hl.
    rewrite IH; simpl.
    destruct (take_lines n r) as [h r']; simpl.
    by rewrite append_assoc.
Qed.

Lemma get_stream_header_spec (n : nat) (unit : string) (w : World) :
  let s := stdin (os w) in
  let header := fst (probe n unit s) in
  let temp := tmp_dir +:+ "/" +:+ "kgtk-header." +:+
              mkstemp_suffix E (mkOS (snd (probe n unit s)) (files (os w)))
                             "kgtk-header." in
  get_stream_header E SysStdinBuffer n unit true w =
  (match bake_in_refused E SysStdinBuffer (2 ^ 16)%Z with
   | Some msg => Raise (mkExc TypeError msg)
   | None =>
       Ok (header,
           Some [mkCommand "cat" [temp; "-"] (Some SysStdinBuffer)
                           (Some (2 ^ 16)%Z)
                           None None None (Some (RemoveTemp temp)) true false])
   end,
   set_os (mkOS (snd (probe n unit s))
                (<[temp := header]> (<[temp := ""]> (files (os w))))) w).
Proof.
  unfold get_stream_header, probe, get_buf_sizes; munfold.
  destruct (String.eqb unit "line").
  - rewrite read_lines_spec, append_empty_l.
    by destruct (bake_in_refused E SysStdinBuffer (2 ^ 16)%Z).
  - by destruct (bake_in_refused E SysStdinBuffer (2 ^ 16)%Z).
Qed.

(** The two outcomes of the bake that is not guarded. *)
Lemma get_stream_header_accepted (n : nat) (unit : string) (w : World) :
  bake_in_refused E SysStdinBuffer (2 ^ 16)%Z = None ->
  let s := stdin (os w) in
  let header := fst (probe n unit s) in
  let temp := tmp_dir +:+ "/" +:+ "kgtk-header." +:+
              mkstemp_suffix E (mkOS (snd (probe n unit s)) (files (os w)))
                             "kgtk-header." in
  get_stream_header E SysStdinBuffer n unit true w =
  (Ok (header,
       Some [mkCommand "cat" [temp; "-"] (Some SysStdinBuffer) (Some (2 ^ 16)%Z)
                       None None None (Some (RemoveTemp temp)) true false]),
   set_os (mkOS (snd (probe n unit s))
                (<[temp := header]> (<[temp := ""]> (files (os w))))) w).
Proof.
  intros Ha. cbv zeta. rewrite get_stream_header_spec. cbv zeta.
  by rewrite Ha.
Qed.

Lemma get_stream_header_refused (n : nat) (unit msg : string) (w : World) :
  bake_in_refused E SysStdinBuffer (2 ^ 16)%Z = Some msg ->
  let s := stdin (os w) in
  let header := fst (probe n unit s) in
  let temp := tmp_dir +:+ "/" +:+ "kgtk-header." +:+
              mkstemp_suffix E (mkOS (snd (probe n unit s)) (files (os w)))
                             "kgtk-header." in
  get_stream_header E SysStdinBuffer n unit true w =
  (Raise (mkExc TypeError msg),
   set_os (mkOS (snd (probe n unit s))
                (<[temp := header]> (<[temp := ""]> (files (os w))))) w).
Proof.
  intros Ha. cbv zeta. rewrite get_stream_header_spec. cbv zeta.
  by rewrite Ha.
Qed.

Lemma probe_app (n : nat) (unit s : string) :
  fst (probe n unit s) +:+ snd (probe n unit s) = s.
Proof.
  unfold probe. destruct (String.eqb unit "line"); simpl.
  - apply take_lines_app.
  - apply bytes_take_drop.
Qed.

Lemma probe_units_bound (n : nat) (unit s : string) :
  probe_units unit (fst (probe n unit s)) <= n.
Proof.
  unfold probe_units, probe. destruct (String.eqb unit "line"); simpl.
  - apply take_lines_count.
  - apply bytes_take_length.
Qed.

Lemma header_file_not_stdin (x : string) :
  String.eqb (tmp_dir +:+ "/" +:+ x) "-" = false.
Proof. reflexivity. Qed.

(** ** The steps of [build_command_1] *)

Lemma build_command_1_steps (input output : option string)
    (gz bz2 xz _piped : bool) (_out_mode : string) (w : World) :
  build_command_1 E input output gz bz2 xz _piped _out_mode w =
  ('(outfile, out) ← open_output _piped output _out_mode;
   '(src, file_type) ← sniff E (default "-" (truthy input));
   let compress := get_compress_command (compress_switch_to_file_type gz bz2 xz) in
   mret (src ++ decode_stage E (default "-" (truthy input)) file_type compress
                             outfile out _piped
             :: encode_stages E compress outfile out _piped)) w.
Proof.
  unfold build_command_1, open_output, sniff, decode_stage, encode_stages.
  unfold mbind, M_bind, mret, M_ret. cbv zeta.
  generalize (get_compress_command (compress_switch_to_file_type gz bz2 xz)).
  intros compress.
  generalize (default "-" (truthy input)). intros inp.
  unfold get_buf_sizes.
  destruct _piped; cbn [negb];
    [| destruct (truthy output) as [name|];
       [destruct (py_open name _out_mode w) as [[f|e] w0]|] ];
    destruct compress; cbn [is_Some bool_decide negb fst snd];
    destruct (String.eqb inp "-");
    repeat match goal with
    | |- context [get_stream_header E ?a ?b ?c ?d ?w] =>
        destruct (get_stream_header E a b c d w) as [[[h cs]|e1] w1]
    | |- context [determine_file_type E ?a ?w] =>
        destruct (determine_file_type E a w) as [[ft|e2] w2]
    end; reflexivity.
Qed.

(** What the three steps do to the world. *)
Lemma open_output_spec (_piped : bool) (output : option string)
    (_out_mode : string) (w : World) :
  exists outfile out w1,
    open_output _piped output _out_mode w = (Ok (outfile, out), w1)
    /\ stdin (os w1) = stdin (os w) /\ lists w1 = lists w
    /\ launched w1 = launched w /\ flushes w1 = flushes w
    /\ opened w1 = opened w ++ opens_of _piped output _out_mode w
    /\ omap (fun o => match o with OpenFile f => Some (f_mode f) | _ => None end)
            (option_list out)
       = f_mode <$> opens_of _piped output _out_mode w.
Proof.
  unfold open_output, opens_of, py_open. unfold mbind, M_bind, mret, M_ret.
  destruct _piped; cbn [negb]; [| destruct (truthy output) as [name|] ];
    eexists _, _, _; (split; [reflexivity |]);
    cbn [stdin os lists launched flushes opened];
    rewrite ?app_nil_r; repeat split; reflexivity.
Qed.

Lemma determine_file_type_world (file : FileArg) (w : World) :
  snd (determine_file_type E file w) = w.
Proof. reflexivity. Qed.

Lemma sniff_frame (input : string) (w : World) :
  let w' := snd (sniff E input w) in
  lists w' = lists w /\ opened w' = opened w /\ launched w' = launched w
  /\ flushes w' = flushes w
  /\ stdin (os w')
     = if String.eqb input "-" then bytes_drop 1024 (stdin (os w))
       else stdin (os w).
Proof.
  cbv zeta. unfold sniff. unfold mbind, M_bind, mret, M_ret.
  destruct (String.eqb input "-").
  - rewrite get_stream_header_spec. cbv zeta.
    destruct (bake_in_refused E SysStdinBuffer (2 ^ 16)%Z) as [msg|];
      [repeat split; reflexivity |].
    match goal with
    | |- context [determine_file_type E ?a ?w0] =>
        pose proof (determine_file_type_world a w0) as Hw;
        destruct (determine_file_type E a w0) as [[ft|e] w2]
    end; cbn [snd] in *; subst w2; repeat split; reflexivity.
  - pose proof (determine_file_type_world (FileName input) w) as Hw.
    destruct (determine_file_type E (FileName input) w) as [[ft|e] w2];
      cbn [snd] in *; subst w2; repeat split; reflexivity.
Qed.

(** The world after [build_command_1] is the world after the first two
    steps, whether they raise or not. *)
Lemma build_command_1_world (input output : option string)
    (gz bz2 xz _piped : bool) (_out_mode : string) (w : World) :
  exists outfile out w1,
    open_output _piped output _out_mode w = (Ok (outfile, out), w1)
    /\ snd (build_command_1 E input output gz bz2 xz _piped _out_mode w)
       = snd (sniff E (default "-" (truthy input)) w1).
Proof.
  destruct (open_output_spec _piped output _out_mode w)
    as (outfile & out & w1 & Ho & _).
  exists outfile, out, w1. split; [exact Ho |].
  rewrite build_command_1_steps. unfold mbind, M_bind, mret, M_ret.
  rewrite Ho.
  by destruct (sniff E (default "-" (truthy input)) w1) as [[[src ft]|e] w2].
Qed.

(** Building the pipeline of standard input reads a probe of 1024
    bytes, whatever the switches and the output. *)
Lemma build_command_1_stdin_probe (output : option string)
    (gz bz2 xz _piped : bool) (_out_mode : string) (w : World) :
  stdin (os (snd (build_command_1 E (Some "-") output gz bz2 xz _piped _out_mode w)))
  = bytes_drop 1024 (stdin (os w)).
Proof.
  destruct (build_command_1_world (Some "-") output gz bz2 xz _piped _out_mode w)
    as (outfile & out & w1 & Ho & ->).
  destruct (open_output_spec _piped output _out_mode w)
    as (outfile' & out' & w1' & Ho' & Hs & _).
  rewrite Ho in Ho'. injection Ho' as <- <- <-.
  destruct (sniff_frame (default "-" (truthy (Some "-"))) w1)
    as (_ & _ & _ & _ & H).
  rewrite H. change (String.eqb _ "-") with true. cbv iota. by rewrite Hs.
Qed.

(** ** Peeking at the header: the round trip *)

(** X17.  Where [sh] accepts the bake of the replaying [cat], then for
    every content of the stream, probe size [n] and unit,
    [get_stream_header] with [preserve] returns a probe of at most [n]
    units and one [cat] command whose output is the probe followed by
    the unread rest of the stream, which is the original stream.  The
    pipeline of standard input reads its probe with size 1024, in
    bytes, whether the bake is accepted or not. *)
Theorem header_peek_round_trip (w : World) (n : nat) (unit : string) :
  bake_in_refused E SysStdinBuffer (2 ^ 16)%Z = None ->
  exists header c w',
    get_stream_header E SysStdinBuffer n unit true w = (Ok (header, Some [c]), w')
    /\ probe_units unit header <= n
    /\ program c = "cat"
    /\ cat_stdout (os w') c = header +:+ stdin (os w')
    /\ header +:+ stdin (os w') = stdin (os w)
    /\ (forall output gz bz2 xz _piped _out_mode w0,
          stdin (os (snd (build_command_1 E (Some "-") output gz bz2 xz
                                          _piped _out_mode w0)))
          = bytes_drop 1024 (stdin (os w0))).
Proof.
  intros Ha.
  pose proof (get_stream_header_accepted n unit w Ha) as H. cbv zeta in H.
  eexists _, _, _. split; [exact H |].
  split; [apply probe_units_bound |].
  split; [reflexivity |].
  split.
  - unfold cat_stdout; simpl.
    rewrite ?header_file_not_stdin, lookup_insert_eq; simpl.
    by rewrite append_empty_r.
  - split; [apply probe_app |].
    intros. apply build_command_1_stdin_probe.
Qed.

(** ** C3: tokens the table does not know *)

Lemma get_cat_command_unknown (file_type : string) :
  file_type ∉ ["gzip"; "bzip2"; "xz"; "text"] ->
  get_cat_command file_type = "cat".
Proof.
  intros H. unfold get_cat_command, compression_type_table.
  rewrite !not_elem_of_cons in H. destruct H as (H1 & H2 & H3 & H4 & _).
  rewrite !lookup_insert_ne by done.
  by rewrite lookup_singleton_ne.
Qed.

Lemma get_cat_command_known :
  get_cat_command "gzip" = "zcat" /\ get_cat_command "bzip2" = "bzcat"
  /\ get_cat_command "xz" = "xzcat" /\ get_cat_command "text" = "cat".
Proof. repeat split; vm_compute; reflexivity. Qed.

(** C3.  Whenever [determine_file_type] produces a token, the token is
    the lower-cased first whitespace-delimited word of the classifier's
    output, the world is untouched, and a token that is none of [gzip],
    [bzip2], [xz], [text] gets the plain [cat] command (and no compress
    command): looking it up never raises. *)
Theorem determine_file_type_fallback (file : FileArg) (w w' : World)
    (token : string) :
  determine_file_type E file w = (Ok token, w') ->
  (exists word rest,
      Py.split (file_brief E (os w) file) = word :: rest
      /\ token = Py.lower word)
  /\ w' = w
  /\ (token ∉ ["gzip"; "bzip2"; "xz"; "text"] ->
      get_cat_command token = "cat" /\ is_text token = true).
Proof.
  unfold determine_file_type. intros H.
  destruct (Py.split (file_brief E (os w) file)) as [|word rest] eqn:Hs;
    simpl in H; [discriminate |].
  unfold decode in H.
  destruct (utf8_valid (byte_values (Py.lower word))); [| discriminate].
  injection H as <- <-.
  split; [by exists word, rest |]. split; [reflexivity |].
  intros Hn. split; [by apply get_cat_command_unknown |].
  unfold is_text. rewrite bool_decide_eq_false_2; [reflexivity |].
  rewrite !not_elem_of_cons in Hn. rewrite !elem_of_cons, elem_of_nil.
  tauto.
Qed.

(** ** The shape of a pipeline *)

Lemma get_cat_command_range (file_type : string) :
  get_cat_command file_type ∈ ["cat"; "zcat"; "bzcat"; "xzcat"].
Proof.
  destruct (decide (file_type ∈ ["gzip"; "bzip2"; "xz"; "text"])) as [H|H].
  - rewrite !elem_of_cons, elem_of_nil in H.
    destruct get_cat_command_known as (K1 & K2 & K3 & K4).
    destruct H as [-> | [-> | [-> | [-> | []]]]];
      rewrite ?K1, ?K2, ?K3, ?K4, !elem_of_cons; auto 10.
  - rewrite get_cat_command_unknown by done. rewrite !elem_of_cons; auto 10.
Qed.

(** The decompressor is chosen exactly for the three compressed types. *)
Lemma get_cat_command_text (file_type : string) :
  get_cat_command file_type = "cat" <-> is_text file_type = true.
Proof.
  unfold is_text.
  destruct (decide (file_type ∈ ["gzip"; "bzip2"; "xz"])) as [H|H].
  - rewrite bool_decide_eq_true_2 by done. simpl.
    rewrite !elem_of_cons, elem_of_nil in H.
    destruct get_cat_command_known as (K1 & K2 & K3 & K4).
    destruct H as [-> | [-> | [-> | []]]]; rewrite ?K1, ?K2, ?K3;
      split; discriminate.
  - rewrite bool_decide_eq_false_2 by done. simpl. split; [done | intros _].
    destruct (decide (file_type = "text")) as [-> | Ht]; [reflexivity |].
    apply get_cat_command_unknown.
    rewrite !not_elem_of_cons in *. tauto.
Qed.

Lemma get_compress_command_switch (gz bz2 xz : bool) :
  get_compress_command (compress_switch_to_file_type gz bz2 xz)
  = if gz then Some "gzip" else if bz2 then Some "bzip2"
    else if xz then Some "xz" else None.
Proof. destruct gz, bz2, xz; vm_compute; reflexivity. Qed.

Lemma build_command_1_ok (input output : option string)
    (gz bz2 xz _piped : bool) (_out_mode : string) (w w' : World)
    (cs : list Command) :
  build_command_1 E input output gz bz2 xz _piped _out_mode w = (Ok cs, w') ->
  exists outfile out src file_type w1,
    open_output _piped output _out_mode w = (Ok (outfile, out), w1)
    /\ sniff E (default "-" (truthy input)) w1 = (Ok (src, file_type), w')
    /\ cs = src ++
            decode_stage E (default "-" (truthy input)) file_type
              (get_compress_command (compress_switch_to_file_type gz bz2 xz))
              outfile out _piped
            :: encode_stages E
                 (get_compress_command (compress_switch_to_file_type gz bz2 xz))
                 outfile out _piped.
Proof.
  rewrite build_command_1_steps. munfold. intros H.
  destruct (open_output _piped output _out_mode w) as [[[outfile out]|e] w1]
    eqn:Ho; [| discriminate].
  destruct (sniff E (default "-" (truthy input)) w1) as [[[src ft]|e] w2]
    eqn:Hs; [| discriminate].
  injection H as <- <-. exists outfile, out, src, ft, w1. by rewrite Hs.
Qed.

(** The source stages: none for a named file, the one [cat] replaying
    standard input for ['-']. *)
Lemma sniff_ok (input : string) (w1 w' : World) (src : list Command)
    (file_type : string) :
  sniff E input w1 = (Ok (src, file_type), w') ->
  (input = "-" /\ exists c, src = [c] /\ program c = "cat"
                           /\ kw_in c = Some SysStdinBuffer /\ kw_out c = None)
  \/ (input <> "-" /\ src = [] /\ w' = w1
      /\ determine_file_type E (FileName input) w1 = (Ok file_type, w1)).
Proof.
  unfold sniff. munfold. destruct (String.eqb input "-") eqn:Hi.
  - apply String.eqb_eq in Hi. rewrite get_stream_header_spec. cbv zeta.
    destruct (bake_in_refused E SysStdinBuffer (2 ^ 16)%Z) as [msg|];
      [discriminate |].
    unfold determine_file_type.
    destruct (index0 _) as [word|e]; [destruct (decode _) as [t|e] |];
      simpl; intros H; try discriminate.
    injection H as <- <- <-. left. split; [done |]. by eexists.
  - apply String.eqb_neq in Hi. unfold determine_file_type.
    destruct (index0 _) as [word|e]; [destruct (decode _) as [t|e] |];
      simpl; intros H; try discriminate.
    injection H as <- <- <-. right. done.
Qed.

Lemma sniffed_ok (input output : option string) (_piped : bool)
    (_out_mode : string) (w w1 w' : World) outfile out src file_type :
  open_output _piped output _out_mode w = (Ok (outfile, out), w1) ->
  sniff E (default "-" (truthy input)) w1 = (Ok (src, file_type), w') ->
  sniffed E input output _piped _out_mode w = Ok file_type.
Proof.
  intros H1 H2. unfold sniffed. munfold. by rewrite H1, H2.
Qed.

Lemma source_not_stage (input : string) (w1 w' : World) (src : list Command)
    (file_type : string) :
  sniff E input w1 = (Ok (src, file_type), w') ->
  decode_stages src = [] /\ encode_stages_of src = [] /\ sink_modes src = [].
Proof.
  intros H. apply sniff_ok in H.
  destruct H as [(_ & c & -> & Hp & Hin & Hout) | (_ & -> & _)]; [| done].
  destruct c as [p a i ib o ob t d pp bg]. simpl in Hp, Hin, Hout. subst.
  repeat split; reflexivity.
Qed.

Lemma decode_stage_is_decode input file_type compress outfile out _piped :
  is_decode_stage (decode_stage E input file_type compress outfile out _piped)
  = true
  /\ is_encode_stage (decode_stage E input file_type compress outfile out _piped)
    = false.
Proof.
  unfold is_decode_stage, is_encode_stage, decode_stage.
  pose proof (get_cat_command_range file_type) as Hr.
  destruct compress; simpl; rewrite bool_decide_eq_true_2 by done; simpl;
    (split; [reflexivity |]); apply bool_decide_eq_false_2;
    rewrite !elem_of_cons, elem_of_nil in *;
    intros Hm; destruct Hr as [Hr | [Hr | [Hr | [Hr | []]]]];
    rewrite Hr in Hm; destruct Hm as [Hm | [Hm | [Hm | []]]]; discriminate.
Qed.

Lemma encode_stages_switch (gz bz2 xz : bool) outfile out _piped :
  let enc := encode_stages E
               (get_compress_command (compress_switch_to_file_type gz bz2 xz))
               outfile out _piped in
  decode_stages enc = [] /\ encode_stages_of enc = enc
  /\ length enc = (if gz || bz2 || xz then 1 else 0).
Proof.
  cbv zeta. rewrite get_compress_command_switch.
  destruct gz, bz2, xz; done.
Qed.

Lemma build_command_1_decode_stages (input output : option string)
    (gz bz2 xz _piped : bool) (_out_mode : string) (w w' : World)
    (cs : list Command) :
  build_command_1 E input output gz bz2 xz _piped _out_mode w = (Ok cs, w') ->
  exists file_type outfile out,
    sniffed E input output _piped _out_mode w = Ok file_type
    /\ decode_stages cs
       = [decode_stage E (default "-" (truthy input)) file_type
            (get_compress_command (compress_switch_to_file_type gz bz2 xz))
            outfile out _piped].
Proof.
  intros H. apply build_command_1_ok in H.
  destruct H as (outfile & out & src & ft & w1 & Ho & Hs & ->).
  exists ft, outfile, out. split; [by eapply sniffed_ok |].
  destruct (source_not_stage _ _ _ _ _ Hs) as (Hsrc & _ & _).
  destruct (decode_stage_is_decode (default "-" (truthy input)) ft
              (get_compress_command (compress_switch_to_file_type gz bz2 xz))
              outfile out _piped) as [Hd _].
  destruct (encode_stages_switch gz bz2 xz outfile out _piped) as (He & _ & _).
  unfold decode_stages in *.
  by rewrite filter_app, Hsrc, filter_cons_True, He by done.
Qed.

(** ** C4: the decode stage of a pipeline *)

(** C4, as the code has it.  Every pipeline that is built has exactly
    one decode stage: the [cat] command of the sniffed file type, run
    on the source.  For an input sniffed as Text that stage is plain
    [cat]; it is plain [cat] only in the Text case, and [zcat], [bzcat]
    or [xzcat] otherwise.  No pipeline has zero decode stages. *)
Theorem pipeline_has_one_decode_stage (input output : option string)
    (gz bz2 xz _piped : bool) (_out_mode : string) (w w' : World)
    (cs : list Command) :
  build_command_1 E input output gz bz2 xz _piped _out_mode w = (Ok cs, w') ->
  exists file_type dec,
    sniffed E input output _piped _out_mode w = Ok file_type
    /\ decode_stages cs = [dec]
    /\ program dec = get_cat_command file_type
    /\ arguments dec = (if String.eqb (default "-" (truthy input)) "-"
                        then [] else [default "-" (truthy input)])
    /\ (program dec = "cat" <-> is_text file_type = true)
    /\ (is_text file_type = false ->
        program dec ∈ ["zcat"; "bzcat"; "xzcat"]).
Proof.
  intros H. apply build_command_1_decode_stages in H.
  destruct H as (ft & outfile & out & Hsn & Hd).
  set (compress := get_compress_command _) in *.
  exists ft, (decode_stage E (default "-" (truthy input)) ft compress
                outfile out _piped).
  split; [exact Hsn |]. split; [exact Hd |].
  assert (Hp : program (decode_stage E (default "-" (truthy input)) ft compress
                          outfile out _piped) = get_cat_command ft).
  { unfold decode_stage. by destruct compress. }
  split; [exact Hp |]. split.
  { unfold decode_stage. by destruct compress. }
  rewrite Hp. split; [apply get_cat_command_text |].
  intros Ht. pose proof (get_cat_command_range ft) as Hr.
  rewrite !elem_of_cons, elem_of_nil in *.
  destruct Hr as [Hr | Hr]; [| tauto].
  apply get_cat_command_text in Hr. congruence.
Qed.

(** ** C7: an input already in the requested format *)

(** C7.  When an output format is requested by a switch and the input
    is sniffed as that same format, the pipeline still ends with a
    decode stage (the decompressor of the format, piped) followed by an
    encode stage (the compressor of the format, run with [-c]). *)
Theorem no_passthrough_shortcut (input output : option string)
    (gz bz2 xz _piped : bool) (_out_mode : string) (w w' : World)
    (cs : list Command) :
  build_command_1 E input output gz bz2 xz _piped _out_mode w = (Ok cs, w') ->
  gz || bz2 || xz = true ->
  sniffed E input output _piped _out_mode w
  = Ok (compress_switch_to_file_type gz bz2 xz) ->
  exists src dec enc,
    cs = src ++ [dec; enc]
    /\ decode_stages cs = [dec]
    /\ encode_stages_of cs = [enc]
    /\ program dec = get_cat_command (compress_switch_to_file_type gz bz2 xz)
    /\ program dec ∈ ["zcat"; "bzcat"; "xzcat"]
    /\ kw_piped dec = true
    /\ program enc = compress_switch_to_file_type gz bz2 xz
    /\ arguments enc = ["-c"].
Proof.
  intros H Hflag Hsn. apply build_command_1_ok in H.
  destruct H as (outfile & out & src & ft & w1 & Ho & Hs & ->).
  rewrite (sniffed_ok _ _ _ _ _ _ _ _ _ _ _ Ho Hs) in Hsn.
  injection Hsn as ->.
  destruct (source_not_stage _ _ _ _ _ Hs) as (Hsrc & Hsrc' & _).
  rewrite get_compress_command_switch.
  unfold decode_stages, encode_stages_of in *.
  destruct gz, bz2, xz; try discriminate Hflag;
    eexists src, _, _; (split; [reflexivity |]);
    rewrite !filter_app, Hsrc, Hsrc'; simpl;
    repeat split; try reflexivity;
    rewrite !elem_of_cons; tauto.
Qed.

(** ** What building a pipeline does to the world *)

Lemma build_command_1_frame (input output : option string)
    (gz bz2 xz _piped : bool) (_out_mode : string) (w : World) :
  let w' := snd (build_command_1 E input output gz bz2 xz _piped _out_mode w) in
  opened w' = opened w ++ opens_of _piped output _out_mode w
  /\ lists w' = lists w /\ launched w' = launched w /\ flushes w' = flushes w.
Proof.
  cbv zeta.
  destruct (build_command_1_world input output gz bz2 xz _piped _out_mode w)
    as (outfile & out & w1 & Ho & ->).
  destruct (open_output_spec _piped output _out_mode w)
    as (outfile' & out' & w1' & Ho' & _ & Hl & Hc & Hf & Hop & _).
  rewrite Ho in Ho'. injection Ho' as <- <- <-.
  destruct (sniff_frame (default "-" (truthy input)) w1)
    as (Hl' & Hop' & Hc' & Hf' & _).
  repeat split; congruence.
Qed.

Lemma open_output_sink (_piped : bool) (output : option string)
    (_out_mode : string) (w w1 : World) outfile out :
  open_output _piped output _out_mode w = (Ok (outfile, out), w1) ->
  omap (fun o => match o with OpenFile f => Some (f_mode f) | _ => None end)
       (option_list out)
  = f_mode <$> opens_of _piped output _out_mode w.
Proof.
  intros Ho.
  destruct (open_output_spec _piped output _out_mode w)
    as (outfile' & out' & w1' & Ho' & _ & _ & _ & _ & _ & Hs).
  rewrite Ho in Ho'. by injection Ho' as <- <- <-.
Qed.

(** A pipeline writes to the output through exactly one stage, its last. *)
Lemma build_command_1_sinks (input output : option string)
    (gz bz2 xz _piped : bool) (_out_mode : string) (w w' : World)
    (cs : list Command) :
  build_command_1 E input output gz bz2 xz _piped _out_mode w = (Ok cs, w') ->
  sink_modes cs = f_mode <$> opens_of _piped output _out_mode w.
Proof.
  intros H. apply build_command_1_ok in H.
  destruct H as (outfile & out & src & ft & w1 & Ho & Hs & ->).
  destruct (source_not_stage _ _ _ _ _ Hs) as (_ & _ & Hsrc).
  rewrite <- (open_output_sink _ _ _ _ _ _ _ Ho).
  unfold sink_modes in *. rewrite omap_app, Hsrc.
  rewrite get_compress_command_switch.
  destruct gz, bz2, xz, out as [[|f]|]; reflexivity.
Qed.

(** ** The loop of [build_command] *)

Lemma build_command_loop_frame (inputs : list string) (output : option string)
    (gz bz2 xz : bool) (out_mode : string) (command : list Command) (w : World) :
  let w' := snd (build_command_loop E inputs output gz bz2 xz out_mode command w) in
  lists w' = lists w /\ launched w' = launched w /\ flushes w' = flushes w.
Proof.
  cbv zeta. revert out_mode command w.
  induction inputs as [|inp rest IH]; intros out_mode command w; simpl; [done |].
  munfold.
  pose proof (build_command_1_frame (Some inp) output gz bz2 xz false out_mode w)
    as (_ & Hl & Hc & Hf). cbv zeta in *.
  destruct (build_command_1 E (Some inp) output gz bz2 xz false out_mode w)
    as [[cs|e] w1]; simpl in *; [| done].
  destruct (IH "ab" (command ++ cs) w1) as (Hl' & Hc' & Hf').
  split; [congruence |]. split; congruence.
Qed.

Lemma build_command_loop_modes (inputs : list string) (output : option string)
    (gz bz2 xz : bool) (out_mode name : string) (command plan : list Command)
    (w w' : World) :
  truthy output = Some name ->
  build_command_loop E inputs output gz bz2 xz out_mode command w = (Ok plan, w') ->
  let modes := match inputs with
               | [] => []
               | _ :: rest => out_mode :: repeat "ab" (length rest)
               end in
  sink_modes plan = sink_modes command ++ modes
  /\ f_mode <$> opened w' = (f_mode <$> opened w) ++ modes
  /\ f_name <$> opened w'
     = (f_name <$> opened w) ++ repeat name (length inputs).
Proof.
  intros Hout. cbv zeta. revert out_mode command w.
  induction inputs as [|inp rest IH]; intros out_mode command w; simpl.
  - munfold. intros H; injection H as <- <-. by rewrite !app_nil_r.
  - munfold.
    pose proof (build_command_1_frame (Some inp) output gz bz2 xz false out_mode w)
      as (Ho & _). cbv zeta in Ho.
    pose proof (build_command_1_sinks (Some inp) output gz bz2 xz false out_mode w)
      as Hs.
    destruct (build_command_1 E (Some inp) output gz bz2 xz false out_mode w)
      as [[cs|e] w1]; simpl in *; [| discriminate].
    specialize (Hs w1 cs eq_refl). unfold opens_of in *. rewrite Hout in *.
    simpl in *. intros H. apply IH in H. destruct H as (H1 & H2 & H3).
    rewrite H1, H2, H3, Ho. unfold sink_modes in *.
    rewrite omap_app, Hs, !fmap_app, <- !app_assoc. simpl.
    by destruct rest.
Qed.

(** ** [build_command] and its [inputs] list *)

Lemma build_command_empty (inputs : option nat) (output : option string)
    (gz bz2 xz : bool) (w : World) :
  let l := default build_command_default_inputs inputs in
  default [] (lists w !! l) = [] ->
  build_command E inputs output gz bz2 xz w
  = build_command_loop E ["-"] output gz bz2 xz "wb" [] (set_list l ["-"] w).
Proof.
  cbv zeta. intros H. unfold build_command. munfold. unfold read_list at 1.
  rewrite H. cbn [length Nat.eqb]. unfold list_append, read_list.
  cbn [lists]. rewrite H, lookup_insert_eq. reflexivity.
Qed.

Lemma build_command_nonempty (inputs : option nat) (output : option string)
    (gz bz2 xz : bool) (w : World) :
  let l := default build_command_default_inputs inputs in
  default [] (lists w !! l) <> [] ->
  build_command E inputs output gz bz2 xz w
  = build_command_loop E (default [] (lists w !! l)) output gz bz2 xz "wb" [] w.
Proof.
  cbv zeta. intros H. unfold build_command. munfold. unfold read_list.
  destruct (default [] (lists w !! default build_command_default_inputs inputs))
    as [|x xs] eqn:Hx; [done |]. cbn [length Nat.eqb]. by rewrite Hx.
Qed.

Lemma build_command_loop_single (inp : string) (output : option string)
    (gz bz2 xz : bool) (out_mode : string) (w : World) :
  build_command_loop E [inp] output gz bz2 xz out_mode [] w
  = build_command_1 E (Some inp) output gz bz2 xz false out_mode w.
Proof.
  simpl. munfold.
  by destruct (build_command_1 E (Some inp) output gz bz2 xz false out_mode w)
    as [[cs|e] w1].
Qed.

Lemma repeat_lookup_lt {A} (x : A) (k i : nat) :
  i < k -> repeat x k !! i = Some x.
Proof.
  revert i; induction k as [|k IH]; intros [|i] H; simpl; try lia; [done |].
  apply IH. lia.
Qed.

(** C2.  When the output is a file name and [build_command] returns a
    plan for [n] inputs (the stdin sentinel standing in for an empty
    list), the plan writes to the output through [n] stages, one per
    input in input order, the file object of input 0 opened with ['wb']
    and that of every later input with ['ab']; these are the [n] file
    objects the call opened, all on the output name.  The classifier
    and the switches are arbitrary. *)
Theorem output_write_mode_law (inputs : option nat) (output : option string)
    (name : string) (gz bz2 xz : bool) (w w' : World) (plan : list Command) :
  truthy output = Some name ->
  build_command E inputs output gz bz2 xz w = (Ok plan, w') ->
  let n := length (default [] (lists w' !!
                                 default build_command_default_inputs inputs)) in
  0 < n
  /\ length (sink_modes plan) = n
  /\ (forall i, i < n ->
        sink_modes plan !! i = Some (if Nat.eqb i 0 then "wb" else "ab"))
  /\ sink_modes plan = write_modes n
  /\ f_mode <$> opened w' = (f_mode <$> opened w) ++ write_modes n
  /\ f_name <$> opened w' = (f_name <$> opened w) ++ repeat name n.
Proof.
  intros Hout H. cbv zeta.
  set (l := default build_command_default_inputs inputs).
  assert (Hw : forall k, 0 < k ->
            length (write_modes k) = k
            /\ forall i, i < k ->
                 write_modes k !! i = Some (if Nat.eqb i 0 then "wb" else "ab")).
  { intros [|k] Hk; [lia |]. simpl. rewrite repeat_length. split; [done |].
    intros [|i] Hi; [done |]. simpl. apply repeat_lookup_lt. lia. }
  destruct (default [] (lists w !! l)) as [|x xs] eqn:Hx.
  - rewrite build_command_empty in H by done. fold l in H.
    pose proof (build_command_loop_frame ["-"] output gz bz2 xz "wb" []
                  (set_list l ["-"] w)) as (Hl & _). cbv zeta in Hl.
    rewrite H in Hl. simpl in Hl. rewrite Hl, lookup_insert_eq. simpl.
    apply (build_command_loop_modes _ _ _ _ _ _ name) in H; [| done].
    destruct H as (H1 & H2 & H3). simpl in *.
    rewrite H1. repeat split; try done; try lia.
    intros [|i] Hi; [done | lia].
  - rewrite build_command_nonempty in H by (fold l; congruence). fold l in H.
    rewrite Hx in H.
    pose proof (build_command_loop_frame (x :: xs) output gz bz2 xz "wb" [] w)
      as (Hl & _). cbv zeta in Hl. rewrite H in Hl. simpl in Hl.
    rewrite Hl, Hx.
    apply (build_command_loop_modes _ _ _ _ _ _ name) in H; [| done].
    destruct H as (H1 & H2 & H3). simpl in H1.
    change (length (x :: xs)) with (S (length xs)) in *.
    destruct (Hw (S (length xs))) as [Hw1 Hw2]; [lia |].
    rewrite H1. change ("wb" :: repeat "ab" (length xs))
      with (write_modes (S (length xs))) in *.
    repeat split; try done; lia.
Qed.

(** C8.  Called on an empty [inputs] list, [build_command] behaves as
    on the list holding the one sentinel ['-']: same outcome, same
    world.  That plan is the pipeline [build_command_1] builds for
    standard input with mode ['wb']: when it is returned it starts with
    the [cat] that replays standard input, and writes to a file output
    through one file object, opened with ['wb']. *)
Theorem empty_inputs_default (inputs : option nat) (output : option string)
    (gz bz2 xz : bool) (w : World) :
  let l := default build_command_default_inputs inputs in
  default [] (lists w !! l) = [] ->
  build_command E inputs output gz bz2 xz w
  = build_command E inputs output gz bz2 xz (set_list l ["-"] w)
  /\ build_command E inputs output gz bz2 xz w
    = build_command_1 E (Some "-") output gz bz2 xz false "wb"
                      (set_list l ["-"] w)
  /\ (forall plan w',
        build_command E inputs output gz bz2 xz w = (Ok plan, w') ->
        (exists c rest, plan = c :: rest /\ program c = "cat"
                        /\ kw_in c = Some SysStdinBuffer)
        /\ length (decode_stages plan) = 1
        /\ sink_modes plan
           = match truthy output with Some _ => ["wb"] | None => [] end).
Proof.
  cbv zeta. intros Hl.
  set (l := default build_command_default_inputs inputs) in *.
  rewrite (build_command_empty inputs) by done. fold l.
  rewrite build_command_loop_single.
  split.
  { assert (Hd : default [] (lists (set_list l ["-"] w) !! l) = ["-"]).
    { unfold set_list. cbn [lists]. by rewrite lookup_insert_eq. }
    rewrite (build_command_nonempty inputs output gz bz2 xz (set_list l ["-"] w));
      fold l; rewrite Hd; [| done].
    by rewrite build_command_loop_single. }
  split; [reflexivity |].
  intros plan w' H.
  pose proof (build_command_1_sinks _ _ _ _ _ _ _ _ _ _ H) as Hs.
  pose proof (build_command_1_decode_stages _ _ _ _ _ _ _ _ _ _ H)
    as (ft & outfile0 & out0 & _ & Hd).
  split.
  - apply build_command_1_ok in H.
    destruct H as (outfile & out & src & ft' & w1 & _ & Hsn & ->).
    apply sniff_ok in Hsn.
    destruct Hsn as [(_ & c & -> & Hp & Hin & _) | (Hne & _)]; [| done].
    by eexists c, _.
  - rewrite Hd, Hs. unfold opens_of. simpl.
    split; [reflexivity |]. by destruct (truthy output).
Qed.

(** ** Running a plan *)

Lemma sh_call_frame (cmd : Command) (piped_input : option RunningCommand)
    (w : World) :
  let w' := snd (sh_call E cmd piped_input w) in
  lists w' = lists w /\ opened w' = opened w /\ flushes w' = flushes w
  /\ launched w' = launched w ++ [cmd].
Proof.
  cbv zeta. unfold sh_call.
  destruct (spawn E cmd piped_input (os w)) as [[code|e] o]; simpl; [| done].
  destruct (kw_piped cmd || kw_bg cmd); simpl; [done |].
  destruct (exit_code_raises code (kw_piped cmd)); simpl; [done |].
  by destruct piped_input as [up|]; [destruct (wait E up) |].
Qed.

Lemma run_sh_loop_frame (commands : list Command)
    (piped_output last_cmd : option RunningCommand) (w : World) :
  let w' := snd (run_sh_loop E commands piped_output last_cmd w) in
  lists w' = lists w /\ opened w' = opened w /\ flushes w' = flushes w.
Proof.
  cbv zeta. revert piped_output last_cmd w.
  induction commands as [|cmd rest IH]; intros piped_output last_cmd w; simpl;
    [done |]. munfold.
  pose proof (sh_call_frame cmd piped_output w) as (H1 & H2 & H3 & _).
  cbv zeta in *.
  destruct (sh_call E cmd piped_output w) as [[r|e] w1]; simpl in *; [| done].
  destruct (IH (if negb (kw_piped cmd || kw_bg cmd) then None else Some r)
               (Some r) w1) as (H1' & H2' & H3').
  repeat split; congruence.
Qed.

Lemma build_command_lists (inputs : option nat) (output : option string)
    (gz bz2 xz : bool) (w : World) :
  let l := default build_command_default_inputs inputs in
  lists (snd (build_command E inputs output gz bz2 xz w))
  = match default [] (lists w !! l) with
    | [] => <[l := ["-"]]> (lists w)
    | _ :: _ => lists w
    end.
Proof.
  cbv zeta. set (l := default build_command_default_inputs inputs).
  destruct (default [] (lists w !! l)) as [|x xs] eqn:Hx.
  - rewrite (build_command_empty inputs) by done. fold l.
    by destruct (build_command_loop_frame ["-"] output gz bz2 xz "wb" []
                   (set_list l ["-"] w)) as (-> & _).
  - rewrite (build_command_nonempty inputs) by (fold l; congruence). fold l.
    by destruct (build_command_loop_frame (default [] (lists w !! l)) output
                   gz bz2 xz "wb" [] w) as (-> & _).
Qed.

(** The body of the [try] in [run]. *)
Lemma run_body_lists (l : nat) (output : option string) (gz bz2 xz : bool)
    (w : World) :
  lists (snd ((commands ← build_command E (Some l) output gz bz2 xz;
               last_cmd ← run_sh_commands E commands;
               exit_code_of last_cmd) w))
  = lists (snd (build_command E (Some l) output gz bz2 xz w)).
Proof.
  munfold.
  destruct (build_command E (Some l) output gz bz2 xz w) as [[cs|e] w1];
    simpl; [| done].
  unfold run_sh_commands.
  pose proof (run_sh_loop_frame cs None None w1) as (Hl & _). cbv zeta in Hl.
  destruct (run_sh_loop E cs None None w1) as [[[r|]|e] w2]; simpl in *; done.
Qed.

Lemma run_lists (inputs : option nat) (output : option string)
    (gz bz2 xz : bool) (w : World) :
  lists (snd (run E inputs output gz bz2 xz w))
  = lists (snd (build_command E (Some (default run_default_inputs inputs))
                              output gz bz2 xz w)).
Proof.
  unfold run, try_except.
  rewrite <- run_body_lists.
  destruct ((commands ← build_command E _ output gz bz2 xz;
             last_cmd ← run_sh_commands E commands;
             exit_code_of last_cmd) w) as [[v|e] w1]; simpl; [done |].
  destruct (is_SIGPIPE (exc_class e)); [done |].
  by destruct (is_Exception (exc_class e)).
Qed.

(** C10.  [build_command] appends ['-'] to the list object it is given
    when that list is empty and leaves every non-empty list, and every
    other list object, as it is.  The default list is one shared
    object: after a call that relied on it while it was empty it holds
    ['-'], a second call relying on it iterates over that ['-'] and
    appends nothing more.  [run] passes its own list on, so it is
    mutated in the same way. *)
Theorem build_command_mutates_empty_inputs (inputs : option nat)
    (output : option string) (gz bz2 xz : bool) (w : World) :
  let l := default build_command_default_inputs inputs in
  let w' := snd (build_command E inputs output gz bz2 xz w) in
  (default [] (lists w !! l) = [] -> lists w' = <[l := ["-"]]> (lists w))
  /\ (default [] (lists w !! l) <> [] -> lists w' = lists w)
  /\ (default [] (lists w !! build_command_default_inputs) = [] ->
      let w1 := snd (build_command E None output gz bz2 xz w) in
      default [] (lists w1 !! build_command_default_inputs) = ["-"]
      /\ forall output2 gz2 bz22 xz2,
           build_command E None output2 gz2 bz22 xz2 w1
           = build_command_loop E ["-"] output2 gz2 bz22 xz2 "wb" [] w1
           /\ lists (snd (build_command E None output2 gz2 bz22 xz2 w1))
              = lists w1)
  /\ (let lr := default run_default_inputs inputs in
      let wr := snd (run E inputs output gz bz2 xz w) in
      (default [] (lists w !! lr) = [] -> lists wr = <[lr := ["-"]]> (lists w))
      /\ (default [] (lists w !! lr) <> [] -> lists wr = lists w)).
Proof.
  cbv zeta. split; [| split; [| split]].
  - intros H. rewrite build_command_lists. cbv zeta. by rewrite H.
  - intros H. rewrite build_command_lists. cbv zeta.
    by destruct (default [] _).
  - intros H.
    assert (H1 : default [] (lists (snd (build_command E None output gz bz2 xz w))
                               !! build_command_default_inputs) = ["-"]).
    { rewrite build_command_lists. cbv zeta. simpl. rewrite H.
      by rewrite lookup_insert_eq. }
    split; [exact H1 |]. intros output2 gz2 bz22 xz2. split.
    + rewrite (build_command_nonempty None); simpl; by rewrite H1.
    + rewrite build_command_lists. cbv zeta. simpl. by rewrite H1.
  - rewrite run_lists, build_command_lists. cbv zeta. simpl.
    split; intros H; [by rewrite H | by destruct (default [] _)].
Qed.

Lemma build_command_frame (inputs : option nat) (output : option string)
    (gz bz2 xz : bool) (w : World) :
  let w' := snd (build_command E inputs output gz bz2 xz w) in
  launched w' = launched w /\ flushes w' = flushes w.
Proof.
  cbv zeta. set (l := default build_command_default_inputs inputs).
  destruct (default [] (lists w !! l)) as [|x xs] eqn:Hx.
  - rewrite (build_command_empty inputs) by done. fold l.
    by destruct (build_command_loop_frame ["-"] output gz bz2 xz "wb" []
                   (set_list l ["-"] w)) as (_ & -> & ->).
  - rewrite (build_command_nonempty inputs) by (fold l; congruence). fold l.
    by destruct (build_command_loop_frame (default [] (lists w !! l)) output
                   gz bz2 xz "wb" [] w) as (_ & -> & ->).
Qed.

Lemma run_body_flushes (l : nat) (output : option string) (gz bz2 xz : bool)
    (w : World) :
  flushes (snd (run_body E l output gz bz2 xz w)) = flushes w.
Proof.
  unfold run_body. munfold.
  pose proof (build_command_frame (Some l) output gz bz2 xz w) as (_ & Hf).
  cbv zeta in Hf.
  destruct (build_command E (Some l) output gz bz2 xz w) as [[cs|e] w1];
    cbn [snd] in *; [| done].
  unfold run_sh_commands.
  pose proof (run_sh_loop_frame cs None None w1) as (_ & _ & Hf').
  cbv zeta in Hf'.
  destruct (run_sh_loop E cs None None w1) as [[[r|]|e] w2];
    unfold exit_code_of; munfold; cbn [snd] in *; congruence.
Qed.

(** ** The handlers of [run] *)

Lemma run_handlers (inputs : option nat) (output : option string)
    (gz bz2 xz : bool) (w : World) :
  run E inputs output gz bz2 xz w
  = match run_body E (default run_default_inputs inputs) output gz bz2 xz w with
    | (Ok v, w1) => (Ok v, w1)
    | (Raise e, w1) =>
        if is_SIGPIPE (exc_class e) then (Ok VNone, flushed w1)
        else if is_Exception (exc_class e)
        then (Raise (mkExc KGTKException
                           ("INTERNAL ERROR: " +:+ exc_str e +:+ newline)), w1)
        else (Raise e, w1)
    end.
Proof.
  unfold run, try_except, run_body.
  destruct ((commands ← build_command E _ output gz bz2 xz;
             last_cmd ← run_sh_commands E commands;
             exit_code_of last_cmd) w) as [[v|e] w1]; [done |].
  destruct (is_SIGPIPE (exc_class e)); [done |].
  by destruct (is_Exception (exc_class e)).
Qed.

(** C6.  When the body of [run] ends with [sh.SignalException_SIGPIPE]
    (the output consumer stopped reading and the writing stage was
    ended by SIGPIPE), [run] catches it, flushes standard output once
    and returns [None]: no exception reaches the caller. *)
Theorem downstream_closed_is_benign (inputs : option nat)
    (output : option string) (gz bz2 xz : bool) (w w1 : World) (e : Exc) :
  run_body E (default run_default_inputs inputs) output gz bz2 xz w
  = (Raise e, w1) ->
  is_SIGPIPE (exc_class e) = true ->
  run E inputs output gz bz2 xz w = (Ok VNone, flushed w1)
  /\ flushes (flushed w1) = S (flushes w)
  /\ os (flushed w1) = os w1.
Proof.
  intros Hb Hs. rewrite run_handlers, Hb, Hs. split; [reflexivity |].
  split; [| reflexivity]. cbn [flushed flushes]. f_equal.
  pose proof (run_body_flushes (default run_default_inputs inputs) output
                gz bz2 xz w) as Hf.
  by rewrite Hb in Hf.
Qed.

(** C9, as the code has it.  An exception that ends the body of [run],
    is not the SIGPIPE signal and is an instance of [Exception] is
    replaced by a [KGTKException] whose message is
    ['INTERNAL ERROR: ' + str(e) + newline], so it holds the original message;
    an exception outside [Exception] ([KeyboardInterrupt], [SystemExit])
    reaches the caller unchanged. *)
Theorem run_wraps_exceptions (inputs : option nat) (output : option string)
    (gz bz2 xz : bool) (w w1 : World) (e : Exc) :
  run_body E (default run_default_inputs inputs) output gz bz2 xz w
  = (Raise e, w1) ->
  is_SIGPIPE (exc_class e) = false ->
  (is_Exception (exc_class e) = true ->
   run E inputs output gz bz2 xz w
   = (Raise (mkExc KGTKException
                   ("INTERNAL ERROR: " +:+ exc_str e +:+ newline)), w1)
   /\ exists before after,
        run E inputs output gz bz2 xz w
        = (Raise (mkExc KGTKException (before +:+ exc_str e +:+ after)), w1))
  /\ (is_Exception (exc_class e) = false ->
      run E inputs output gz bz2 xz w = (Raise e, w1)).
Proof.
  intros Hb Hs. rewrite run_handlers, Hb, Hs.
  split; intros ->; [| reflexivity].
  split; [reflexivity |]. by exists "INTERNAL ERROR: ", newline.
Qed.

(** ** A stage that fails *)

Lemma exit_code_raises_nonzero (exit_code : Z) :
  exit_code <> 0%Z -> exit_code_raises exit_code false = true.
Proof.
  intros H. unfold exit_code_raises. simpl.
  destruct (Z.eqb_spec exit_code 0); [done | reflexivity].
Qed.

Lemma sh_call_waits (cmd : Command) (piped_input : option RunningCommand)
    (w : World) (exit_code : Z) (o : OS) (e : Exc) :
  spawn E cmd piped_input (os w) = (Exited exit_code, o) ->
  kw_piped cmd || kw_bg cmd = false ->
  wait E (Running cmd exit_code piped_input) = Some e ->
  sh_call E cmd piped_input w
  = (Raise e, set_os o (mkWorld (os w) (lists w) (opened w)
                                (launched w ++ [cmd]) (flushes w))).
Proof.
  intros Hs Hp Hw. unfold sh_call. by rewrite Hs, Hp, Hw.
Qed.

(** The loop launches the commands in order and stops at the first
    call that raises. *)
Lemma run_sh_loop_launched (commands : list Command)
    (piped_output last_cmd : option RunningCommand) (w : World) :
  match run_sh_loop E commands piped_output last_cmd w with
  | (Ok _, w') => launched w' = launched w ++ commands
  | (Raise e, w') =>
      exists done c rest,
        commands = done ++ c :: rest
        /\ launched w' = launched w ++ done ++ [c]
  end.
Proof.
  revert piped_output last_cmd w.
  induction commands as [|cmd rest IH]; intros piped_output last_cmd w; simpl.
  - munfold. by rewrite app_nil_r.
  - munfold.
    pose proof (sh_call_frame cmd piped_output w) as (_ & _ & _ & Hl).
    cbv zeta in Hl.
    destruct (sh_call E cmd piped_output w) as [[r|e] w1]; simpl in *.
    + specialize (IH (if negb (kw_piped cmd || kw_bg cmd) then None else Some r)
                     (Some r) w1).
      destruct (run_sh_loop E rest _ (Some r) w1) as [[v|e] w2].
      * by rewrite IH, Hl, <- app_assoc.
      * destruct IH as (done & c & rest' & -> & IH).
        exists (cmd :: done), c, rest'. split; [done |].
        by rewrite IH, Hl, <- !app_assoc.
    + exists [], cmd, rest. by rewrite Hl.
Qed.

(** C5, as the code has it.  A stage that is waited on and exits with a
    non-zero status makes its call raise [sh]'s exception for that
    status, and so does a failed stage piped into the stage that is
    waited on.  [run_sh_commands] has no handler: the loop stops at the
    call that raised, so the commands after it, those of every later
    input among them, are never launched, and [run] re-raises the
    exception as a [KGTKException].  Only when every call returns are
    all the commands of the plan launched, in plan order. *)
Theorem failed_stage_stops_later_inputs :
  (forall cmd piped_input w exit_code o,
      spawn E cmd piped_input (os w) = (Exited exit_code, o) ->
      kw_piped cmd || kw_bg cmd = false ->
      exit_code <> 0%Z ->
      fst (sh_call E cmd piped_input w)
      = Raise (mkExc (get_rc_exc exit_code) (sh_message E cmd exit_code)))
  /\ (forall cmd up w o e,
        spawn E cmd (Some up) (os w) = (Exited 0, o) ->
        kw_piped cmd || kw_bg cmd = false ->
        wait E up = Some e ->
        fst (sh_call E cmd (Some up) w) = Raise e)
  /\ (forall commands w,
        match run_sh_commands E commands w with
        | (Ok _, w') => launched w' = launched w ++ commands
        | (Raise e, w') =>
            exists done c rest,
              commands = done ++ c :: rest
              /\ launched w' = launched w ++ done ++ [c]
        end)
  /\ (forall inputs output gz bz2 xz w plan w0 e w1,
        build_command E (Some (default run_default_inputs inputs))
                      output gz bz2 xz w = (Ok plan, w0) ->
        run_sh_commands E plan w0 = (Raise e, w1) ->
        is_SIGPIPE (exc_class e) = false ->
        is_Exception (exc_class e) = true ->
        run E inputs output gz bz2 xz w
        = (Raise (mkExc KGTKException
                        ("INTERNAL ERROR: " +:+ exc_str e +:+ newline)), w1)
        /\ exists done c rest,
             plan = done ++ c :: rest
             /\ launched w1 = launched w0 ++ done ++ [c]).
Proof.
  split; [| split; [| split]].
  - intros cmd pin w code o Hs Hp Hc.
    assert (Hpiped : kw_piped cmd = false) by by destruct (kw_piped cmd).
    erewrite sh_call_waits; [reflexivity | exact Hs | exact Hp |].
    simpl. by rewrite Hpiped, exit_code_raises_nonzero.
  - intros cmd up w o e Hs Hp Hw.
    assert (Hpiped : kw_piped cmd = false) by by destruct (kw_piped cmd).
    erewrite sh_call_waits; [reflexivity | exact Hs | exact Hp |].
    simpl. by rewrite Hpiped, Hw.
  - intros commands w. apply run_sh_loop_launched.
  - intros inputs output gz bz2 xz w plan w0 e w1 Hb Hr Hs He.
    split.
    + rewrite run_handlers. unfold run_body. munfold.
      by rewrite Hb, Hr, Hs, He.
    + pose proof (run_sh_loop_launched plan None None w0) as Hl.
      unfold run_sh_commands in Hr. by rewrite Hr in Hl.
Qed.

End Properties.

(** * Further properties of the module *)

Section Further.

Variable E : Env.

Ltac munfold := unfold mbind, M_bind, mret, M_ret, raise, lift in *.

(** ** The encode stage *)

(** X1.  A pipeline has an encode stage exactly when a compression
    switch is set.  It is then the last stage, runs with [-c] and
    [_tty_out=False], and its program follows the precedence of the
    switches: gzip before bzip2 before xz. *)
Theorem pipeline_encode_stage (input output : option string)
    (gz bz2 xz _piped : bool) (_out_mode : string) (w w' : World)
    (cs : list Command) :
  build_command_1 E input output gz bz2 xz _piped _out_mode w = (Ok cs, w') ->
  (gz || bz2 || xz = false -> encode_stages_of cs = [])
  /\ (gz || bz2 || xz = true ->
      exists enc,
        encode_stages_of cs = [enc] /\ last cs = Some enc
        /\ program enc = (if gz then "gzip" else if bz2 then "bzip2" else "xz")
        /\ arguments enc = ["-c"]
        /\ kw_tty_out enc = Some false
        /\ kw_piped enc = _piped).
Proof.
  intros H. apply build_command_1_ok in H.
  destruct H as (outfile & out & src & ft & w1 & Ho & Hs & ->).
  destruct (source_not_stage E _ _ _ _ _ Hs) as (_ & Hsrc & _).
  destruct (decode_stage_is_decode E (default "-" (truthy input)) ft
              (get_compress_command (compress_switch_to_file_type gz bz2 xz))
              outfile out _piped) as [_ Hd].
  unfold encode_stages_of in *.
  rewrite filter_app, Hsrc, filter_cons_False by (by rewrite Hd).
  rewrite get_compress_command_switch in *.
  set (dec := decode_stage E _ ft _ outfile out _piped) in *.
  clearbody dec. cbn [app].
  split; intros Hf.
  - destruct gz, bz2, xz; try discriminate Hf. reflexivity.
  - destruct gz, bz2, xz; try discriminate Hf;
      eexists; (split; [reflexivity |]);
      (split; [| repeat split; reflexivity]);
      by rewrite last_app.
Qed.

(** ** The compression table *)

(** X2.  [get_compress_command] answers for every file type, known or
    not: the three compressed types map to the compressor of the same
    name; [text] (whose entry has no [compress] key) and every type
    missing from the table give [None]. *)
Theorem get_compress_command_keys (file_type : string) :
  (file_type ∈ ["gzip"; "bzip2"; "xz"] ->
   get_compress_command file_type = Some file_type)
  /\ (file_type ∉ ["gzip"; "bzip2"; "xz"] ->
      get_compress_command file_type = None).
Proof.
  split; intros H.
  - rewrite !elem_of_cons, elem_of_nil in H.
    destruct H as [-> | [-> | [-> | []]]]; vm_compute; reflexivity.
  - destruct (decide (file_type = "text")) as [-> | Ht];
      [vm_compute; reflexivity |].
    rewrite !not_elem_of_cons in H. destruct H as (H1 & H2 & H3 & _).
    unfold get_compress_command, compression_type_table.
    rewrite !lookup_insert_ne by done.
    rewrite lookup_singleton_ne by done. reflexivity.
Qed.

(** ** Reading a header without keeping the stream whole *)

(** X3.  Without [preserve], [get_stream_header] returns the probe alone:
    at most [n] units, no command sequence.  The stream is left just
    after the probe, so probe and unread rest are the original stream;
    no temporary file is made and nothing else in the world changes. *)
Theorem get_stream_header_no_preserve (n : nat) (unit : string) (w : World) :
  exists header w',
    get_stream_header E SysStdinBuffer n unit false w = (Ok (header, None), w')
    /\ probe_units unit header <= n
    /\ header +:+ stdin (os w') = stdin (os w)
    /\ files (os w') = files (os w)
    /\ lists w' = lists w /\ opened w' = opened w
    /\ launched w' = launched w /\ flushes w' = flushes w.
Proof.
  exists (fst (probe n unit (stdin (os w)))),
         (set_os (mkOS (snd (probe n unit (stdin (os w)))) (files (os w))) w).
  split.
  - unfold get_stream_header, probe. munfold.
    destruct (String.eqb unit "line").
    + by rewrite read_lines_spec, append_empty_l.
    + reflexivity.
  - split; [apply probe_units_bound |].
    split; [apply probe_app |]. repeat split; reflexivity.
Qed.

(** X4.  In the byte unit (any unit other than ['line']) a stream that
    holds at most [n] bytes is read whole and left at its end.  The
    probe returned is the whole stream; with [preserve] that is so when
    [sh] accepts the bake of the replaying [cat], and when it refuses
    the call raises its [TypeError], the stream already read to its
    end. *)
Theorem get_stream_header_short_stream (n : nat) (unit : string)
    (preserve : bool) (w : World) :
  String.eqb unit "line" = false ->
  String.length (stdin (os w)) <= n ->
  let r := get_stream_header E SysStdinBuffer n unit preserve w in
  stdin (os (snd r)) = ""
  /\ match (if preserve then bake_in_refused E SysStdinBuffer (2 ^ 16)%Z
            else None) with
     | None => exists cmds, fst r = Ok (stdin (os w), cmds)
     | Some msg => fst r = Raise (mkExc TypeError msg)
     end.
Proof.
  intros Hu Hn. cbv zeta. destruct (bytes_take_short n _ Hn) as [Ht Hd].
  destruct preserve.
  - pose proof (get_stream_header_spec E n unit w) as H. cbv zeta in H.
    unfold probe in H. rewrite Hu in H. cbn [fst snd] in H.
    rewrite Ht, Hd in H. rewrite H. cbn [fst snd].
    split; [reflexivity |].
    destruct (bake_in_refused E SysStdinBuffer (2 ^ 16)%Z) as [msg|];
      [reflexivity | by eexists].
  - unfold get_stream_header. munfold. rewrite Hu.
    unfold stream_read. rewrite Ht, Hd. cbn [fst snd].
    split; [reflexivity | by eexists].
Qed.

(** ** What [run] can return *)

Lemma exit_code_accepted (exit_code : Z) :
  exit_code_raises exit_code false = false -> exit_code = 0%Z.
Proof.
  unfold exit_code_raises. cbn [andb]. intros H.
  apply orb_false_iff in H as [H _]. apply negb_false_iff in H.
  by apply Z.eqb_eq.
Qed.

(** A command that is waited on and whose call returns has exited
    with status 0. *)
Lemma sh_call_returns_zero (cmd : Command) (piped_input : option RunningCommand)
    (w w' : World) (r : RunningCommand) :
  kw_piped cmd || kw_bg cmd = false ->
  sh_call E cmd piped_input w = (Ok r, w') ->
  running_exit_code r = 0%Z /\ running_command r = cmd.
Proof.
  intros Hp. unfold sh_call. rewrite Hp.
  assert (Hpiped : kw_piped cmd = false) by by destruct (kw_piped cmd).
  destruct (spawn E cmd piped_input (os w)) as [[code|e] o]; [| discriminate].
  cbn [wait]. rewrite Hpiped.
  destruct (exit_code_raises code false) eqn:Hc; [discriminate |].
  destruct (match piped_input with Some up => wait E up | None => None end);
    [discriminate |].
  intros H. injection H as <- _. split; [by apply exit_code_accepted | done].
Qed.

Lemma run_sh_loop_last (commands : list Command)
    (piped_output last_cmd : option RunningCommand) (w w' : World)
    (c : Command) (r : option RunningCommand) :
  last commands = Some c ->
  kw_piped c || kw_bg c = false ->
  run_sh_loop E commands piped_output last_cmd w = (Ok r, w') ->
  exists rc, r = Some rc /\ running_exit_code rc = 0%Z
             /\ running_command rc = c.
Proof.
  revert piped_output last_cmd w.
  induction commands as [|cmd rest IH]; intros piped_output last_cmd w Hl Hp;
    [discriminate |].
  cbn [run_sh_loop]. munfold.
  destruct (sh_call E cmd piped_output w) as [[r1|e] w1] eqn:Hc;
    [| discriminate].
  destruct rest as [|cmd2 rest2].
  - cbn [run_sh_loop]. munfold. intros H. injection H as <- <-.
    injection Hl as ->. exists r1. split; [done |].
    by eapply sh_call_returns_zero.
  - intros H. eapply IH; [| exact Hp | exact H]. exact Hl.
Qed.

Lemma build_command_1_last (input output : option string)
    (gz bz2 xz _piped : bool) (_out_mode : string) (w w' : World)
    (cs : list Command) :
  build_command_1 E input output gz bz2 xz _piped _out_mode w = (Ok cs, w') ->
  exists c, last cs = Some c /\ kw_piped c = _piped /\ kw_bg c = false.
Proof.
  intros H. apply build_command_1_ok in H.
  destruct H as (outfile & out & src & ft & w1 & _ & _ & ->).
  rewrite last_app. unfold decode_stage, encode_stages.
  destruct (get_compress_command _); eexists; repeat split; reflexivity.
Qed.

Lemma build_command_loop_last (inputs : list string) (output : option string)
    (gz bz2 xz : bool) (out_mode : string) (command plan : list Command)
    (w w' : World) :
  inputs <> [] \/ (exists c, last command = Some c
                            /\ kw_piped c || kw_bg c = false) ->
  build_command_loop E inputs output gz bz2 xz out_mode command w
  = (Ok plan, w') ->
  exists c, last plan = Some c /\ kw_piped c || kw_bg c = false.
Proof.
  revert out_mode command w.
  induction inputs as [|inp rest IH]; intros out_mode command w Hg;
    cbn [build_command_loop]; munfold.
  - intros H. injection H as <- <-. by destruct Hg as [Hg | Hg].
  - destruct (build_command_1 E (Some inp) output gz bz2 xz false out_mode w)
      as [[cs|e] w1] eqn:Hb; [| discriminate].
    apply IH. right.
    destruct (build_command_1_last _ _ _ _ _ _ _ _ _ _ Hb)
      as (c & Hl & Hp & Hbg).
    exists c. rewrite last_app, Hl. split; [done |]. by rewrite Hp, Hbg.
Qed.

Lemma build_command_last (inputs : option nat) (output : option string)
    (gz bz2 xz : bool) (w w' : World) (plan : list Command) :
  build_command E inputs output gz bz2 xz w = (Ok plan, w') ->
  exists c, last plan = Some c /\ kw_piped c || kw_bg c = false.
Proof.
  set (l := default build_command_default_inputs inputs).
  destruct (default [] (lists w !! l)) as [|x xs] eqn:Hx.
  - rewrite (build_command_empty E inputs) by done.
    apply build_command_loop_last. by left.
  - rewrite (build_command_nonempty E inputs) by (fold l; congruence).
    fold l. rewrite Hx. apply build_command_loop_last. by left.
Qed.

(** X5.  The outcomes of [run].  When [run] returns a number it is 0:
    a non-zero status never comes back as a return value, because the
    last stage of the plan is waited on and [sh] raises for it.  When
    it returns [None] standard output was flushed once (the SIGPIPE
    case).  When it raises, the exception is a [KGTKException] whose
    message starts with ['INTERNAL ERROR: '] and ends with a newline,
    or it is not an instance of [Exception]. *)
Theorem run_outcomes (inputs : option nat) (output : option string)
    (gz bz2 xz : bool) (w : World) :
  match run E inputs output gz bz2 xz w with
  | (Ok (VInt z), w') => z = 0%Z /\ flushes w' = flushes w
  | (Ok VNone, w') => flushes w' = S (flushes w)
  | (Raise e, w') =>
      (exc_class e = KGTKException
       /\ exists msg, exc_str e = "INTERNAL ERROR: " +:+ msg +:+ newline)
      \/ is_Exception (exc_class e) = false
  end.
Proof.
  rewrite run_handlers.
  pose proof (run_body_flushes E (default run_default_inputs inputs) output
                gz bz2 xz w) as Hf.
  destruct (run_body E (default run_default_inputs inputs) output gz bz2 xz w)
    as [[v|e] w1] eqn:Hb; cbn [snd] in Hf.
  - unfold run_body in Hb. munfold.
    destruct (build_command E _ output gz bz2 xz w) as [[plan|e] w0] eqn:Hp;
      [| discriminate].
    destruct (build_command_last _ _ _ _ _ _ _ _ Hp) as (c & Hl & Hc).
    unfold run_sh_commands in Hb.
    destruct (run_sh_loop E plan None None w0) as [[r|e] w2] eqn:Hr;
      [| discriminate].
    destruct (run_sh_loop_last _ _ _ _ _ _ _ Hl Hc Hr) as (rc & -> & Hz & _).
    unfold exit_code_of in Hb. munfold. injection Hb as <- <-.
    by rewrite Hz.
  - destruct (is_SIGPIPE (exc_class e)); [by cbn [flushed flushes]; f_equal |].
    destruct (is_Exception (exc_class e)) eqn:He; [left | by right].
    split; [reflexivity |]. by exists (exc_str e).
Qed.

(** ** The words of [split] *)

Lemma all_chars_snoc (p : ascii -> bool) (s : string) (c : ascii) :
  all_chars p (s +:+ String c "") = all_chars p s && p c.
Proof.
  induction s as [|x s IH].
  - rewrite append_empty_l. cbn [all_chars]. by rewrite andb_true_r.
  - rewrite append_cons. cbn [all_chars]. by rewrite IH, andb_assoc.
Qed.

Lemma snoc_not_empty (s : string) (c : ascii) :
  String.eqb (s +:+ String c "") "" = false.
Proof. destruct s; reflexivity. Qed.

(** Every word is non-empty and made of bytes of the input that are
    not whitespace. *)
Lemma split_from_words (p : ascii -> bool) (cur s : string) :
  all_chars not_space cur = true ->
  all_chars p cur = true -> all_chars p s = true ->
  Forall (fun word => word <> "" /\ all_chars not_space word = true
                      /\ all_chars p word = true)
         (split_from cur s).
Proof.
  revert cur; induction s as [|c s IH]; intros cur Hn Hc Hs;
    cbn [split_from].
  - destruct (String.eqb_spec cur ""); [constructor |].
    constructor; [done | constructor].
  - cbn [all_chars] in Hs. apply andb_true_iff in Hs as [Hpc Hs].
    destruct (is_space c) eqn:Hsp.
    + destruct (String.eqb_spec cur "").
      * by apply IH.
      * constructor; [done |]. by apply IH.
    + apply IH; [| | done]; rewrite all_chars_snoc.
      * unfold not_space at 2. by rewrite Hn, Hsp.
      * by rewrite Hc, Hpc.
Qed.

Lemma split_from_blank (cur s : string) :
  split_from cur s = [] <-> cur = "" /\ all_chars is_space s = true.
Proof.
  revert cur; induction s as [|c s IH]; intros cur; cbn [split_from all_chars].
  - destruct (String.eqb_spec cur ""); [done |]. split; [done | tauto].
  - destruct (is_space c) eqn:Hsp; cbn [andb].
    + destruct (String.eqb_spec cur "") as [-> | Hne].
      * apply IH.
      * split; [done | tauto].
    + rewrite IH. split; [| intros [_ ?]; done].
      intros [H _]. pose proof (snoc_not_empty cur c) as Hn.
      rewrite H in Hn. discriminate.
Qed.

(** ** The token of [determine_file_type] *)

Lemma lower_char_facts (c : ascii) :
  is_space (lower_char c) = is_space c
  /\ lower_char (lower_char c) = lower_char c
  /\ is_ascii (lower_char c) = is_ascii c.
Proof. destruct c as [[] [] [] [] [] [] [] []]; vm_compute; done. Qed.

Lemma lower_facts (s : string) :
  all_chars not_space (Py.lower s) = all_chars not_space s
  /\ Py.lower (Py.lower s) = Py.lower s
  /\ all_chars is_ascii (Py.lower s) = all_chars is_ascii s
  /\ (Py.lower s = "" <-> s = "").
Proof.
  induction s as [|c s (IH1 & IH2 & IH3 & _)]; [done |].
  destruct (lower_char_facts c) as (H1 & H2 & H3).
  cbn [Py.lower all_chars]. unfold not_space at 1 3.
  rewrite H1, H2, H3, IH1, IH2, IH3. done.
Qed.

Lemma utf8_valid_ascii (s : string) :
  all_chars is_ascii s = true -> utf8_valid (byte_values s) = true.
Proof.
  unfold byte_values. induction s as [|c s IH]; [done |].
  cbn [all_chars list_ascii_of_string map]. intros H.
  apply andb_true_iff in H as [Hc Hs]. unfold is_ascii in Hc.
  cbn [utf8_valid]. rewrite Hc. by apply IH.
Qed.

Lemma all_chars_true (s : string) : all_chars (fun _ => true) s = true.
Proof. induction s as [|c s IH]; [done | exact IH]. Qed.

(** X6.  A token returned by [determine_file_type] is never empty, holds
    no whitespace and no ASCII upper-case letter (lower-casing it again
    changes nothing), and is well-formed UTF-8. *)
Theorem determine_file_type_token (file : FileArg) (w w' : World)
    (token : string) :
  determine_file_type E file w = (Ok token, w') ->
  token <> ""
  /\ all_chars not_space token = true
  /\ Py.lower token = token
  /\ utf8_valid (byte_values token) = true.
Proof.
  unfold determine_file_type. intros H.
  pose proof (split_from_words (fun _ => true) ""
                (file_brief E (os w) file) eq_refl eq_refl) as Hw.
  unfold Py.split in H.
  destruct (split_from "" (file_brief E (os w) file)) as [|word rest];
    [discriminate |].
  cbn [index0] in H. unfold decode in H.
  destruct (utf8_valid (byte_values (Py.lower word))) eqn:Hu; [| discriminate].
  injection H as <- _.
  assert (Ha : all_chars (fun _ => true) (file_brief E (os w) file) = true).
  { apply all_chars_true. }
  apply Hw in Ha. apply Forall_cons in Ha as [(Hne & Hns & _) _].
  destruct (lower_facts word) as (H1 & H2 & _ & H4).
  repeat split; [by rewrite H4 | by rewrite H1 | done | done].
Qed.

(** X7.  [determine_file_type] raises [IndexError] exactly when the
    classifier's output is empty or all whitespace; the world is left
    as it was. *)
Theorem determine_file_type_blank (file : FileArg) (w : World) :
  all_chars is_space (file_brief E (os w) file) = true
  <-> determine_file_type E file w
      = (Raise (mkExc IndexError "list index out of range"), w).
Proof.
  unfold determine_file_type, Py.split.
  pose proof (split_from_blank "" (file_brief E (os w) file)) as Hb.
  destruct (split_from "" (file_brief E (os w) file)) as [|word rest].
  - cbn [index0]. split; [done | intros _]. by apply Hb.
  - cbn [index0]. split.
    + intros H. assert (Hn : word :: rest = []) by (apply Hb; done).
      discriminate.
    + unfold decode. by destruct (utf8_valid _).
Qed.

(** X8.  On classifier output that is plain ASCII and holds at least
    one word, [determine_file_type] returns a token: decoding cannot
    fail. *)
Theorem determine_file_type_ascii (file : FileArg) (w : World) :
  all_chars is_ascii (file_brief E (os w) file) = true ->
  all_chars is_space (file_brief E (os w) file) = false ->
  exists token, determine_file_type E file w = (Ok token, w).
Proof.
  intros Ha Hs. unfold determine_file_type, Py.split.
  pose proof (split_from_blank "" (file_brief E (os w) file)) as Hb.
  pose proof (split_from_words is_ascii "" (file_brief E (os w) file)
                eq_refl eq_refl Ha) as Hw.
  destruct (split_from "" (file_brief E (os w) file)) as [|word rest].
  - destruct Hb as [Hb _]. destruct (Hb eq_refl) as [_ Hb']. congruence.
  - apply Forall_cons in Hw as [(_ & _ & Hwa) _].
    cbn [index0]. unfold decode.
    destruct (lower_facts word) as (_ & _ & H3 & _).
    rewrite utf8_valid_ascii by by rewrite H3. by eexists.
Qed.

(** ** The temporary file of a preserved header *)

(** X15.  With [preserve], the probe is spilled to one file under
    [tmp_dir] whose name starts with [kgtk-header.]; after the call that
    file holds exactly the probe and no other file has changed, whether
    the call returns or raises.  When [sh] accepts the bake, the one
    command returned reads that file and then standard input, and its
    [_done] removes that same file.  When [sh] refuses the bake, the
    call raises its [TypeError] and returns no command: the file is
    left behind. *)
Theorem get_stream_header_temp_file (n : nat) (unit : string) (w : World) :
  let r := get_stream_header E SysStdinBuffer n unit true w in
  exists header temp,
    String.prefix "/tmp/kgtk-header." temp = true
    /\ files (os (snd r)) = <[temp := header]> (files (os w))
    /\ header +:+ stdin (os (snd r)) = stdin (os w)
    /\ opened (snd r) = opened w /\ launched (snd r) = launched w
    /\ match bake_in_refused E SysStdinBuffer (2 ^ 16)%Z with
       | None =>
           exists c,
             fst r = Ok (header, Some [c])
             /\ program c = "cat" /\ arguments c = [temp; "-"]
             /\ kw_in c = Some SysStdinBuffer
             /\ kw_done c = Some (RemoveTemp temp)
             /\ kw_piped c = true
       | Some msg => fst r = Raise (mkExc TypeError msg)
       end.
Proof.
  cbv zeta.
  pose proof (get_stream_header_spec E n unit w) as H. cbv zeta in H.
  exists (fst (probe n unit (stdin (os w)))),
         (tmp_dir +:+ "/" +:+ "kgtk-header." +:+
          mkstemp_suffix E (mkOS (snd (probe n unit (stdin (os w))))
                                 (files (os w))) "kgtk-header.").
  rewrite H. cbn [fst snd].
  split; [destruct (mkstemp_suffix E _ _); reflexivity |].
  split; [cbn [os set_os files]; apply insert_insert_eq |].
  split; [apply probe_app |].
  split; [reflexivity |]. split; [reflexivity |].
  destruct (bake_in_refused E SysStdinBuffer (2 ^ 16)%Z) as [msg|];
    [reflexivity |].
  eexists. repeat split; reflexivity.
Qed.

(** ** The sink of a pipeline and its cleanup *)

Lemma open_output_shape (_piped : bool) (output : option string)
    (_out_mode : string) (w w1 : World) outfile out :
  open_output _piped output _out_mode w = (Ok (outfile, out), w1) ->
  (_piped = true /\ outfile = None /\ out = None /\ w1 = w)
  \/ (_piped = false /\ truthy output = None /\ outfile = None
      /\ out = Some SysStdoutBuffer /\ w1 = w)
  \/ (exists f, _piped = false /\ truthy output = Some (f_name f)
                /\ f_mode f = _out_mode /\ outfile = Some f
                /\ out = Some (OpenFile f)
                /\ opened w1 = opened w ++ [f]).
Proof.
  unfold open_output, py_open. munfold.
  destruct _piped; cbn [negb]; [| destruct (truthy output) as [name|] ];
    intros H; injection H as <- <- <-.
  - by left.
  - right; right. by eexists (mkFile name _out_mode _).
  - right; left. done.
Qed.

Lemma sniff_source (input : string) (w1 w' : World) (src : list Command)
    (file_type : string) :
  sniff E input w1 = (Ok (src, file_type), w') ->
  src = []
  \/ exists temp,
       src = [mkCommand "cat" [temp; "-"] (Some SysStdinBuffer) (Some (2 ^ 16)%Z)
                        None None None (Some (RemoveTemp temp)) true false].
Proof.
  unfold sniff. munfold. destruct (String.eqb input "-") eqn:Hi.
  - rewrite (get_stream_header_spec E). cbv zeta.
    destruct (bake_in_refused E SysStdinBuffer (2 ^ 16)%Z) as [msg|];
      [discriminate |].
    unfold determine_file_type.
    destruct (index0 _) as [word|e]; [destruct (decode _) as [t|e] |];
      simpl; intros H; try discriminate.
    injection H as <- <- <-. right. by eexists.
  - unfold determine_file_type.
    destruct (index0 _) as [word|e]; [destruct (decode _) as [t|e] |];
      simpl; intros H; try discriminate.
    injection H as <- <- <-. by left.
Qed.

(** X9.  With [_piped] the output is ignored: no file is opened even when
    [output] names one, no stage has an [_out], and every stage,
    the last one included, is baked as piped. *)
Theorem build_command_1_piped (input output : option string)
    (gz bz2 xz : bool) (_out_mode : string) (w w' : World)
    (cs : list Command) :
  build_command_1 E input output gz bz2 xz true _out_mode w = (Ok cs, w') ->
  opened w' = opened w
  /\ Forall (fun c => kw_out c = None /\ kw_piped c = true) cs.
Proof.
  intros H.
  pose proof (build_command_1_frame E input output gz bz2 xz true _out_mode w)
    as (Hop & _). cbv zeta in Hop. rewrite H in Hop. cbn [snd] in Hop.
  unfold opens_of in Hop. cbn [negb] in Hop. rewrite app_nil_r in Hop.
  split; [exact Hop |].
  apply (build_command_1_ok E) in H.
  destruct H as (outfile & out & src & ft & w1 & Ho & Hs & ->).
  apply open_output_shape in Ho.
  destruct Ho as [(_ & -> & -> & _) | [(Hp & _) | (f & Hp & _)]];
    try discriminate Hp.
  apply Forall_app. split.
  - apply sniff_source in Hs. destruct Hs as [-> | (temp & ->)].
    + constructor.
    + constructor; [by split | constructor].
  - unfold decode_stage, encode_stages.
    destruct (get_compress_command _) as [c|]; repeat constructor.
Qed.

(** X10.  The shape of one pipeline.  All stages but the last are piped
    and have no [_out]; the last stage alone writes, its [_piped] is the
    argument, and its [_done] closes exactly the file object it writes
    to.  That object is the one this call opened, on the name and in
    the mode given; for standard output nothing is opened and nothing
    is closed. *)
Theorem build_command_1_writing_stage (input output : option string)
    (gz bz2 xz _piped : bool) (_out_mode : string) (w w' : World)
    (cs : list Command) :
  build_command_1 E input output gz bz2 xz _piped _out_mode w = (Ok cs, w') ->
  exists body c,
    cs = body ++ [c]
    /\ Forall (fun b => kw_piped b = true /\ kw_bg b = false
                        /\ kw_out b = None) body
    /\ kw_piped c = _piped /\ kw_bg c = false
    /\ match kw_out c with
       | Some (OpenFile f) =>
           kw_done c = Some (CloseOutfile (Some f))
           /\ opened w' = opened w ++ [f]
           /\ truthy output = Some (f_name f) /\ f_mode f = _out_mode
           /\ _piped = false
       | Some SysStdoutBuffer =>
           kw_done c = Some (CloseOutfile None)
           /\ opened w' = opened w /\ truthy output = None /\ _piped = false
       | None =>
           kw_done c = Some (CloseOutfile None)
           /\ opened w' = opened w /\ _piped = true
       end.
Proof.
  intros H. apply (build_command_1_ok E) in H.
  destruct H as (outfile & out & src & ft & w1 & Ho & Hs & ->).
  pose proof (sniff_frame E (default "-" (truthy input)) w1) as (_ & Hop & _).
  rewrite Hs in Hop. cbn [snd] in Hop.
  assert (Hsrc : Forall (fun b => kw_piped b = true /\ kw_bg b = false
                                  /\ kw_out b = None) src).
  { apply sniff_source in Hs. destruct Hs as [-> | (temp & ->)];
      repeat constructor. }
  apply open_output_shape in Ho.
  unfold decode_stage, encode_stages.
  destruct (get_compress_command _) as [k|].
  - eexists (src ++ [_]), _. split; [by rewrite <- app_assoc |].
    split; [apply Forall_app; split; [exact Hsrc | repeat constructor] |].
    cbn [kw_piped kw_bg kw_out kw_done].
    destruct Ho as [(-> & -> & -> & ->) | [(-> & Ht & -> & -> & ->)
                                          | (f & -> & Ht & Hm & -> & -> & Hf)]];
      repeat split; congruence.
  - eexists src, _. split; [reflexivity |]. split; [exact Hsrc |].
    cbn [kw_piped kw_bg kw_out kw_done].
    destruct Ho as [(-> & -> & -> & ->) | [(-> & Ht & -> & -> & ->)
                                          | (f & -> & Ht & Hm & -> & -> & Hf)]];
      repeat split; congruence.
Qed.

(** X16.  Buffer sizes.  The stage that writes is baked with the output
    buffer [get_buf_sizes] found for its own sink: 2**16 when [sh]
    accepts the trial bake for that sink, with [_tty_out] set exactly
    when no compression switch is given, and [None] otherwise.  No
    other stage has an output buffer size; the stage replaying
    standard input reads with an input buffer of 2**16. *)
Theorem build_command_1_buffers (input output : option string)
    (gz bz2 xz _piped : bool) (_out_mode : string) (w w' : World)
    (cs : list Command) :
  build_command_1 E input output gz bz2 xz _piped _out_mode w = (Ok cs, w') ->
  exists body c,
    cs = body ++ [c]
    /\ kw_out_bufsize c
       = (if bake_accepts E (kw_out c) (negb (gz || bz2 || xz)) _piped
          then Some (2 ^ 16)%Z else None)
    /\ kw_in_bufsize c = None
    /\ Forall (fun b => kw_out_bufsize b = None
                        /\ kw_in_bufsize b
                           = if bool_decide (is_Some (kw_in b))
                             then Some (2 ^ 16)%Z else None) body.
Proof.
  intros H. apply (build_command_1_ok E) in H.
  destruct H as (outfile & out & src & ft & w1 & _ & Hs & ->).
  assert (Hsrc : Forall (fun b => kw_out_bufsize b = None
                                  /\ kw_in_bufsize b
                                     = if bool_decide (is_Some (kw_in b))
                                       then Some (2 ^ 16)%Z else None) src).
  { apply sniff_source in Hs. destruct Hs as [-> | (temp & ->)];
      repeat constructor. }
  rewrite get_compress_command_switch.
  unfold decode_stage, encode_stages, get_buf_sizes.
  destruct gz; [| destruct bz2; [| destruct xz]]; cbn [orb negb].
  1-3: eexists (src ++ [_]), _; (split; [by rewrite <- app_assoc |]);
       cbn [kw_out_bufsize kw_out kw_in_bufsize snd];
       (split; [reflexivity |]); (split; [reflexivity |]);
       apply Forall_app; split; [exact Hsrc | repeat constructor].
  eexists src, _. split; [reflexivity |].
  cbn [kw_out_bufsize kw_out kw_in_bufsize snd]. by repeat split.
Qed.

(** ** The output file and the sniffing of the input *)



(** ** The plan follows the inputs *)

Lemma build_command_1_stages (inp : string) (output : option string)
    (gz bz2 xz _piped : bool) (_out_mode : string) (w w' : World)
    (cs : list Command) :
  build_command_1 E (Some inp) output gz bz2 xz _piped _out_mode w
  = (Ok cs, w') ->
  arguments <$> decode_stages cs = [source_arguments inp]
  /\ program <$> encode_stages_of cs
     = option_list (get_compress_command
                      (compress_switch_to_file_type gz bz2 xz)).
Proof.
  intros H. apply (build_command_1_ok E) in H.
  destruct H as (outfile & out & src & ft & w1 & Ho & Hs & ->).
  destruct (source_not_stage E _ _ _ _ _ Hs) as (Hsd & Hse & _).
  destruct (decode_stage_is_decode E (default "-" (truthy (Some inp))) ft
              (get_compress_command (compress_switch_to_file_type gz bz2 xz))
              outfile out _piped) as [Hd Hd'].
  destruct (encode_stages_switch E gz bz2 xz outfile out _piped)
    as (He & He' & _). cbv zeta in He, He'.
  unfold decode_stages, encode_stages_of in *.
  rewrite !filter_app, Hsd, Hse, filter_cons_True, He by done.
  rewrite filter_cons_False, He' by (by rewrite Hd').
  split.
  - unfold decode_stage, source_arguments.
    by destruct (get_compress_command _).
  - unfold encode_stages. by destruct (get_compress_command _).
Qed.

Lemma build_command_loop_stages (inputs : list string) (output : option string)
    (gz bz2 xz : bool) (out_mode : string) (command plan : list Command)
    (w w' : World) :
  build_command_loop E inputs output gz bz2 xz out_mode command w
  = (Ok plan, w') ->
  arguments <$> decode_stages plan
  = (arguments <$> decode_stages command) ++ (source_arguments <$> inputs)
  /\ program <$> encode_stages_of plan
     = (program <$> encode_stages_of command)
       ++ match get_compress_command (compress_switch_to_file_type gz bz2 xz)
          with
          | Some k => repeat k (length inputs)
          | None => []
          end.
Proof.
  revert out_mode command w.
  induction inputs as [|inp rest IH]; intros out_mode command w;
    cbn [build_command_loop]; munfold.
  - intros H. injection H as <- <-.
    destruct (get_compress_command _); cbn [fmap list_fmap length repeat];
      by rewrite !app_nil_r.
  - destruct (build_command_1 E (Some inp) output gz bz2 xz false out_mode w)
      as [[cs|e] w1] eqn:Hb; [| discriminate].
    intros H. apply IH in H as [H1 H2].
    destruct (build_command_1_stages _ _ _ _ _ _ _ _ _ _ Hb) as [Hd He].
    unfold decode_stages, encode_stages_of in *.
    rewrite filter_app, fmap_app in H1. rewrite filter_app, fmap_app in H2.
    rewrite H1, H2, Hd, He, <- !app_assoc. split; [reflexivity |].
    by destruct (get_compress_command _).
Qed.

(** X12.  The plan follows the inputs.  It has one decode stage per
    input, in the order of the inputs (of [['-']] when none is given),
    each baked with the name of its own file or with no argument for
    standard input; and with a compression switch one encode stage per
    input, so every input is compressed on its own and the output is
    the concatenation of the compressed members. *)
Theorem plan_follows_inputs (inputs : option nat) (output : option string)
    (gz bz2 xz : bool) (w w' : World) (plan : list Command) :
  build_command E inputs output gz bz2 xz w = (Ok plan, w') ->
  let l := match default [] (lists w
                               !! default build_command_default_inputs inputs)
           with
           | [] => ["-"]
           | x :: xs => x :: xs
           end in
  arguments <$> decode_stages plan = source_arguments <$> l
  /\ program <$> encode_stages_of plan
     = match get_compress_command (compress_switch_to_file_type gz bz2 xz) with
       | Some k => repeat k (length l)
       | None => []
       end.
Proof.
  cbv zeta.
  destruct (default [] (lists w !! default build_command_default_inputs inputs))
    as [|x xs] eqn:Hx.
  - rewrite (build_command_empty E inputs) by done.
    intros H. by apply build_command_loop_stages in H.
  - rewrite (build_command_nonempty E inputs) by congruence.
    rewrite Hx. intros H. by apply build_command_loop_stages in H.
Qed.

(** ** Pipes made by [run_sh_commands] *)

Lemma sh_call_result (cmd : Command) (piped_input : option RunningCommand)
    (w w' : World) (r : RunningCommand) :
  sh_call E cmd piped_input w = (Ok r, w') ->
  pipe_chain r = pipe_chain_of piped_input ++ [cmd]
  /\ launched w' = launched w ++ [cmd].
Proof.
  unfold sh_call.
  destruct (spawn E cmd piped_input (os w)) as [[code|e] o]; [| discriminate].
  destruct (kw_piped cmd || kw_bg cmd).
  - intros H. injection H as <- <-. by destruct piped_input.
  - destruct (wait E _); [discriminate |].
    intros H. injection H as <- <-. by destruct piped_input.
Qed.

Lemma run_sh_loop_segment (body : list Command) (c : Command)
    (piped_output last_cmd r : option RunningCommand) (w w' : World) :
  Forall (fun b => kw_piped b || kw_bg b = true) body ->
  run_sh_loop E (body ++ [c]) piped_output last_cmd w = (Ok r, w') ->
  exists rc, r = Some rc
             /\ pipe_chain rc = pipe_chain_of piped_output ++ body ++ [c].
Proof.
  revert piped_output last_cmd w.
  induction body as [|b body IH]; intros piped_output last_cmd w Hb;
    cbn [app run_sh_loop]; munfold.
  - destruct (sh_call E c piped_output w) as [[r1|e] w1] eqn:Hc;
      [| discriminate].
    intros H. injection H as <- <-. exists r1. split; [done |].
    by apply sh_call_result in Hc as [Hc _].
  - destruct (sh_call E b piped_output w) as [[r1|e] w1] eqn:Hc;
      [| discriminate].
    apply Forall_cons in Hb as [Hb1 Hb]. rewrite Hb1. cbn [negb].
    intros H. apply IH in H as (rc & -> & Hrc); [| exact Hb].
    exists rc. split; [done |]. apply sh_call_result in Hc as [Hc _].
    cbn [pipe_chain_of] in Hrc. by rewrite Hrc, Hc, <- app_assoc.
Qed.

Lemma run_sh_loop_prefix (pre rest : list Command) (p : Command)
    (piped_output last_cmd r : option RunningCommand) (w w' : World) :
  last pre = Some p -> kw_piped p || kw_bg p = false ->
  run_sh_loop E (pre ++ rest) piped_output last_cmd w = (Ok r, w') ->
  exists last_cmd' w1,
    run_sh_loop E rest None last_cmd' w1 = (Ok r, w').
Proof.
  revert piped_output last_cmd w.
  induction pre as [|q pre IH]; intros piped_output last_cmd w Hl Hp;
    [discriminate |].
  cbn [app run_sh_loop]. munfold.
  destruct (sh_call E q piped_output w) as [[r1|e] w1] eqn:Hc;
    [| discriminate].
  destruct pre as [|q2 pre2].
  - injection Hl as ->. rewrite Hp. cbn [negb app]. intros H. by eexists _, _.
  - intros H. eapply IH; [exact Hl | exact Hp | exact H].
Qed.

(** X13.  How [run_sh_commands] composes pipes.  A run of commands
    marked piped (or bg) followed by one command is connected into one
    pipe, and when the command before that run is not so marked (or
    there is none) the pipe starts afresh: the running command that is
    returned has exactly the commands of the run upstream, in order,
    and nothing of what was called before. *)
Theorem run_sh_commands_pipes (pre body : list Command) (c : Command)
    (w w' : World) (r : option RunningCommand) :
  pre = [] \/ (exists p, last pre = Some p /\ kw_piped p || kw_bg p = false) ->
  Forall (fun b => kw_piped b || kw_bg b = true) body ->
  run_sh_commands E (pre ++ body ++ [c]) w = (Ok r, w') ->
  exists rc, r = Some rc /\ pipe_chain rc = body ++ [c].
Proof.
  intros Hpre Hbody. unfold run_sh_commands.
  destruct Hpre as [-> | (p & Hl & Hp)].
  - cbn [app]. intros H.
    by apply run_sh_loop_segment in H.
  - intros H.
    apply (run_sh_loop_prefix _ _ _ _ _ _ _ _ Hl Hp) in H
      as (lc & w1 & H).
    by apply run_sh_loop_segment in H.
Qed.

Lemma build_command_1_body (input output : option string)
    (gz bz2 xz _piped : bool) (_out_mode : string) (w w' : World)
    (cs : list Command) :
  build_command_1 E input output gz bz2 xz _piped _out_mode w = (Ok cs, w') ->
  exists body c,
    cs = body ++ [c]
    /\ Forall (fun b => kw_piped b || kw_bg b = true) body
    /\ kw_piped c || kw_bg c = _piped.
Proof.
  intros H. apply (build_command_1_ok E) in H.
  destruct H as (outfile & out & src & ft & w1 & _ & Hs & ->).
  assert (Hsrc : Forall (fun b => kw_piped b || kw_bg b = true) src).
  { apply sniff_source in Hs. destruct Hs as [-> | (temp & ->)];
      repeat constructor. }
  unfold decode_stage, encode_stages.
  destruct (get_compress_command _) as [k|].
  - eexists (src ++ [_]), _. split; [by rewrite <- app_assoc |].
    split; [apply Forall_app; split; [exact Hsrc | repeat constructor] |].
    cbn [kw_piped kw_bg]. by rewrite orb_false_r.
  - eexists src, _. split; [reflexivity |]. split; [exact Hsrc |].
    cbn [kw_piped kw_bg]. by rewrite orb_false_r.
Qed.

(** X14.  The stages of one input form one pipe, and the pipelines of
    different inputs are not connected.  When the pipeline built for an
    input is run after the commands of earlier inputs, the running
    command returned for it has the stages of this input upstream, in
    plan order, and none of an earlier input; its exit status is 0. *)
Theorem pipelines_are_separate (input output : option string)
    (gz bz2 xz : bool) (_out_mode : string) (w0 w0' : World)
    (pre cs : list Command) (w w' : World) (r : option RunningCommand) :
  build_command_1 E input output gz bz2 xz false _out_mode w0 = (Ok cs, w0') ->
  pre = [] \/ (exists p, last pre = Some p /\ kw_piped p || kw_bg p = false) ->
  run_sh_commands E (pre ++ cs) w = (Ok r, w') ->
  exists rc, r = Some rc /\ pipe_chain rc = cs
             /\ running_exit_code rc = 0%Z.
Proof.
  intros Hb Hpre Hr.
  destruct (build_command_1_body _ _ _ _ _ _ _ _ _ _ Hb)
    as (body & c & -> & Hbody & Hc).
  unfold run_sh_commands in Hr.
  assert (Hl : last ((pre ++ body) ++ [c]) = Some c) by by rewrite last_app.
  pose proof Hr as Hr'. rewrite app_assoc in Hr'.
  destruct (run_sh_loop_last _ _ _ _ _ _ _ Hl Hc Hr') as (rc & -> & Hz & _).
  exists rc. split; [done |]. split; [| exact Hz].
  destruct Hpre as [-> | (p & Hlp & Hp)].
  - cbn [app] in Hr. apply run_sh_loop_segment in Hr as (rc' & Hrc' & Hch);
      [| exact Hbody].
    by injection Hrc' as <-.
  - apply (run_sh_loop_prefix _ _ _ _ _ _ _ _ Hlp Hp) in Hr as (lc & w1 & Hr).
    apply run_sh_loop_segment in Hr as (rc' & Hrc' & Hch); [| exact Hbody].
    by injection Hrc' as <-.
Qed.

End Further.

(** * Concrete runs *)

(** C1 fails on the code where [sh] refuses the bake of the replaying
    [cat]: that bake is not guarded, unlike the trial bake of
    [get_buf_sizes].  With standard input holding [stdin text] and a
    probe of 5 bytes, [get_stream_header] raises the [TypeError] and
    returns neither probe nor command: the 5 bytes are gone from the
    stream, and the temporary file that holds them is left behind.
    Building the pipeline of ['-'] raises the same way, and [run]
    on standard input ends with a [KGTKException]. *)
Theorem header_peek_raises_when_bake_refused :
  get_stream_header refusing_E SysStdinBuffer 5 "byte" true sample_w
  = (Raise (mkExc TypeError bake_refusal),
     set_os (mkOS " text"
                  (<["/tmp/kgtk-header.x7k2p9" := "stdin"]> sample_files))
            sample_w)
  /\ fst (build_command_1 refusing_E (Some "-") None false false false false
                          "wb" sample_w)
     = Raise (mkExc TypeError bake_refusal)
  /\ stdin (os (snd (build_command_1 refusing_E (Some "-") None false false
                                     false false "wb" sample_w))) = ""
  /\ fst (run refusing_E (Some 2) None false false false sample_w_empty)
     = Raise (mkExc KGTKException
                    ("INTERNAL ERROR: " +:+ bake_refusal +:+ newline)).
Proof. repeat split; vm_compute; reflexivity. Qed.

Lemma header_peek_round_trip_witness :
  exists header c w',
    get_stream_header sample_E SysStdinBuffer 5 "byte" true sample_w
    = (Ok (header, Some [c]), w')
    /\ header = "stdin"
    /\ cat_stdout (os w') c = "stdin text".
Proof.
  destruct (header_peek_round_trip sample_E sample_w 5 "byte" eq_refl)
    as (header & c & w' & Hg & _ & _ & Hc & Hs & _).
  exists header, c, w'. split; [exact Hg |].
  split.
  - assert (Hv : get_stream_header sample_E SysStdinBuffer 5 "byte" true
                   sample_w
                 = (Ok ("stdin",
                        Some [mkCommand "cat" ["/tmp/kgtk-header.x7k2p9"; "-"]
                                (Some SysStdinBuffer) (Some 65536%Z) None None
                                None
                                (Some (RemoveTemp "/tmp/kgtk-header.x7k2p9"))
                                true false]),
                    snd (get_stream_header sample_E SysStdinBuffer 5 "byte"
                           true sample_w)))
      by (vm_compute; reflexivity).
    rewrite Hv in Hg. by injection Hg as <- _ _.
  - rewrite Hc, Hs. reflexivity.
Defined.

Lemma determine_file_type_fallback_witness :
  determine_file_type sample_E (FileName "notes.txt") sample_w
  = (Ok "ascii", sample_w)
  /\ get_cat_command "ascii" = "cat".
Proof.
  assert (H : determine_file_type sample_E (FileName "notes.txt") sample_w
              = (Ok "ascii", sample_w)) by (vm_compute; reflexivity).
  split; [exact H |].
  destruct (determine_file_type_fallback sample_E _ _ _ _ H) as (_ & _ & Hc).
  apply Hc. rewrite !not_elem_of_cons.
  repeat split; try discriminate. apply not_elem_of_nil.
Defined.

(** C4 as stated fails: a text file is sniffed as Text (its token,
    [ascii], is not in the table), and its pipeline is one [cat] stage
    run on the file, not an empty chain. *)
Lemma text_input_has_a_decode_stage :
  build_command_1 sample_E (Some "notes.txt") None false false false false
                  "wb" sample_w
  = (Ok [cat_notes], sample_w)
  /\ sniffed sample_E (Some "notes.txt") None false "wb" sample_w = Ok "ascii"
  /\ is_text "ascii" = true
  /\ decode_stages [cat_notes] = [cat_notes]
  /\ decode_stages [cat_notes] <> [].
Proof. repeat split; try (vm_compute; reflexivity). discriminate. Qed.

Lemma pipeline_has_one_decode_stage_witness :
  build_command_1 sample_E (Some "notes.txt") None false false false false
                  "wb" sample_w
  = (Ok [cat_notes], sample_w)
  /\ exists dec, decode_stages [cat_notes] = [dec] /\ program dec = "cat".
Proof.
  assert (H : build_command_1 sample_E (Some "notes.txt") None false false
                false false "wb" sample_w = (Ok [cat_notes], sample_w))
    by (vm_compute; reflexivity).
  split; [exact H |].
  destruct (pipeline_has_one_decode_stage sample_E _ _ _ _ _ _ _ _ _ _ H)
    as (ft & dec & Hs & Hd & Hp & _ & Ht & _).
  exists dec. split; [exact Hd |]. apply Ht.
  assert (Hs' : sniffed sample_E (Some "notes.txt") None false "wb" sample_w
                = Ok "ascii") by (vm_compute; reflexivity).
  rewrite Hs' in Hs. injection Hs as <-. reflexivity.
Defined.

Lemma no_passthrough_shortcut_witness :
  sniffed sample_E (Some "a.gz") None false "wb" sample_w = Ok "gzip"
  /\ exists src dec enc,
       fst (build_command_1 sample_E (Some "a.gz") None true false false false
                            "wb" sample_w) = Ok (src ++ [dec; enc])
       /\ program dec = "zcat" /\ program enc = "gzip".
Proof.
  assert (Hs : sniffed sample_E (Some "a.gz") None false "wb" sample_w
               = Ok (compress_switch_to_file_type true false false))
    by (vm_compute; reflexivity).
  split; [exact Hs |].
  destruct (build_command_1 sample_E (Some "a.gz") None true false false false
              "wb" sample_w) as [[cs|e] w'] eqn:H;
    [| vm_compute in H; discriminate H].
  destruct (no_passthrough_shortcut sample_E _ _ _ _ _ _ _ _ _ _ H eq_refl Hs)
    as (src & dec & enc & -> & _ & _ & Hd & _ & _ & He & _).
  exists src, dec, enc. split; [reflexivity |].
  split; [rewrite Hd | rewrite He]; vm_compute; reflexivity.
Defined.

Lemma output_write_mode_law_witness :
  truthy (Some "out.txt") = Some "out.txt"
  /\ exists plan w',
       build_command sample_E (Some 2) (Some "out.txt") false false false
                     sample_w = (Ok plan, w')
       /\ sink_modes plan = ["wb"; "ab"]
       /\ f_mode <$> opened w' = ["wb"; "ab"].
Proof.
  split; [reflexivity |].
  destruct (build_command sample_E (Some 2) (Some "out.txt") false false false
              sample_w) as [[plan|e] w'] eqn:H;
    [| vm_compute in H; discriminate H].
  exists plan, w'. split; [reflexivity |].
  destruct (output_write_mode_law sample_E (Some 2) (Some "out.txt") "out.txt"
              false false false sample_w w' plan eq_refl H)
    as (_ & _ & _ & Hm & Ho & _).
  assert (Hn : length (default [] (lists w' !! default
                 build_command_default_inputs (Some 2))) = 2).
  { replace w' with (snd (build_command sample_E (Some 2) (Some "out.txt")
                            false false false sample_w)) by (by rewrite H).
    vm_compute. reflexivity. }
  rewrite Hn in Hm, Ho. split; [exact Hm | exact Ho].
Defined.

Lemma empty_inputs_default_witness :
  default [] (lists sample_w_empty !! 2) = []
  /\ build_command sample_E (Some 2) None false false false sample_w_empty
     = build_command_1 sample_E (Some "-") None false false false false "wb"
                       (set_list 2 ["-"] sample_w_empty).
Proof.
  assert (H : default [] (lists sample_w_empty !! default
                build_command_default_inputs (Some 2)) = [])
    by (vm_compute; reflexivity).
  split; [exact H |].
  exact (proj1 (proj2 (empty_inputs_default sample_E (Some 2) None false false
                         false sample_w_empty H))).
Defined.

Lemma downstream_closed_is_benign_witness :
  is_SIGPIPE (SignalException 13) = true
  /\ fst (run_body (sample_env writer_sigpipe) 2 None false false false sample_w)
     = Raise (mkExc (SignalException 13) "RAN: zcat")
  /\ fst (run (sample_env writer_sigpipe) (Some 2) None false false false
              sample_w) = Ok VNone
  /\ flushes (snd (run (sample_env writer_sigpipe) (Some 2) None false false
                       false sample_w)) = 1.
Proof.
  split; [reflexivity |].
  destruct (run_body (sample_env writer_sigpipe) 2 None false false false
              sample_w) as [[v|e] w1] eqn:H;
    [vm_compute in H; discriminate H |].
  assert (He : e = mkExc (SignalException 13) "RAN: zcat").
  { vm_compute in H. injection H as <- _. reflexivity. }
  subst e. split; [reflexivity |].
  destruct (downstream_closed_is_benign (sample_env writer_sigpipe) (Some 2)
              None false false false sample_w w1 _ H eq_refl)
    as (Hr & Hf & _).
  rewrite Hr. split; [reflexivity | exact Hf].
Defined.

Lemma run_wraps_exceptions_witness :
  fst (run_body (sample_env zcat_fails) 2 None false false false sample_w)
  = Raise (mkExc (ErrorReturnCode 1) "RAN: zcat")
  /\ fst (run (sample_env zcat_fails) (Some 2) None false false false sample_w)
     = Raise (mkExc KGTKException
                    ("INTERNAL ERROR: " +:+ "RAN: zcat" +:+ newline)).
Proof.
  destruct (run_body (sample_env zcat_fails) 2 None false false false
              sample_w) as [[v|e] w1] eqn:H;
    [vm_compute in H; discriminate H |].
  assert (He : e = mkExc (ErrorReturnCode 1) "RAN: zcat").
  { vm_compute in H. injection H as <- _. reflexivity. }
  subst e. split; [reflexivity |].
  destruct (run_wraps_exceptions (sample_env zcat_fails) (Some 2) None false
              false false sample_w w1 _ H eq_refl) as [Hw _].
  destruct (Hw eq_refl) as [Hr _]. rewrite Hr. reflexivity.
Defined.

(** C9 as stated fails: an interrupt while a stage is waited on is not
    an instance of [Exception]; it leaves [run] as it is, not as a
    [KGTKException]. *)
Lemma keyboard_interrupt_is_not_wrapped :
  fst (run (sample_env interrupted) (Some 2) None false false false sample_w)
  = Raise (mkExc KeyboardInterrupt "")
  /\ is_SIGPIPE KeyboardInterrupt = false
  /\ KeyboardInterrupt <> KGTKException.
Proof. repeat split; try (vm_compute; reflexivity). discriminate. Qed.

(** C5 as stated fails: of the two inputs [a.gz] and [b.txt], the
    decode stage of the first exits with status 1; the plan holds the
    pipeline of the second, yet it is never launched, and the run ends
    with a [KGTKException]. *)
Lemma failed_decode_aborts_the_run :
  program <$> default [] (match fst (build_command (sample_env zcat_fails)
                                       (Some 2) None false false false sample_w)
                          with Ok plan => Some plan | Raise _ => None end)
  = ["zcat"; "cat"]
  /\ (program <$> launched (snd (run (sample_env zcat_fails) (Some 2) None
                                     false false false sample_w)),
      arguments <$> launched (snd (run (sample_env zcat_fails) (Some 2) None
                                       false false false sample_w)))
     = (["zcat"], [["a.gz"]])
  /\ fst (run (sample_env zcat_fails) (Some 2) None false false false sample_w)
     = Raise (mkExc KGTKException
                    ("INTERNAL ERROR: " +:+ "RAN: zcat" +:+ newline)).
Proof. repeat split; vm_compute; reflexivity. Qed.

(** ** Concrete runs for the further properties *)

Lemma pipeline_encode_stage_witness :
  exists cs enc,
    fst (build_command_1 sample_E (Some "a.gz") None true false false false
                         "wb" sample_w) = Ok cs
    /\ encode_stages_of cs = [enc] /\ last cs = Some enc
    /\ program enc = "gzip".
Proof.
  destruct (build_command_1 sample_E (Some "a.gz") None true false false false
              "wb" sample_w) as [[cs|e] w'] eqn:H;
    [| vm_compute in H; discriminate H].
  destruct (pipeline_encode_stage sample_E _ _ _ _ _ _ _ _ _ _ H) as [_ Ht].
  destruct (Ht eq_refl) as (enc & He & Hl & Hp & _).
  exists cs, enc. repeat split; assumption.
Defined.

Lemma get_stream_header_short_stream_witness :
  stdin (os (snd (get_stream_header sample_E SysStdinBuffer 16 "byte" true
                                    sample_w))) = ""
  /\ exists cmds,
       fst (get_stream_header sample_E SysStdinBuffer 16 "byte" true sample_w)
       = Ok (stdin (os sample_w), cmds).
Proof.
  assert (Hu : String.eqb "byte" "line" = false) by reflexivity.
  assert (Hn : String.length (stdin (os sample_w)) <= 16)
    by (vm_compute; lia).
  destruct (get_stream_header_short_stream sample_E 16 "byte" true sample_w
              Hu Hn) as [He Hr].
  split; [exact He | exact Hr].
Defined.

Lemma determine_file_type_token_witness :
  determine_file_type sample_E (FileName "notes.txt") sample_w
  = (Ok "ascii", sample_w)
  /\ "ascii" <> ""
  /\ all_chars not_space "ascii" = true
  /\ Py.lower "ascii" = "ascii"
  /\ utf8_valid (byte_values "ascii") = true.
Proof.
  assert (H : determine_file_type sample_E (FileName "notes.txt") sample_w
              = (Ok "ascii", sample_w)) by (vm_compute; reflexivity).
  split; [exact H |].
  exact (determine_file_type_token sample_E _ _ _ _ H).
Defined.

Lemma determine_file_type_ascii_witness :
  exists token,
    determine_file_type sample_E (FileName "b.txt") sample_w
    = (Ok token, sample_w).
Proof.
  apply (determine_file_type_ascii sample_E (FileName "b.txt") sample_w);
    vm_compute; reflexivity.
Defined.

Lemma build_command_1_piped_witness :
  exists cs,
    fst (build_command_1 sample_E (Some "a.gz") (Some "out.gz") true false
                         false true "wb" sample_w) = Ok cs
    /\ opened (snd (build_command_1 sample_E (Some "a.gz") (Some "out.gz") true
                                    false false true "wb" sample_w))
       = opened sample_w
    /\ Forall (fun c => kw_out c = None /\ kw_piped c = true) cs.
Proof.
  destruct (build_command_1 sample_E (Some "a.gz") (Some "out.gz") true false
              false true "wb" sample_w) as [[cs|e] w'] eqn:H;
    [| vm_compute in H; discriminate H].
  exists cs. split; [reflexivity |].
  exact (build_command_1_piped sample_E _ _ _ _ _ _ _ _ _ H).
Defined.

Lemma build_command_1_writing_stage_witness :
  exists cs body c,
    fst (build_command_1 sample_E (Some "a.gz") (Some "out.gz") true false
                         false false "wb" sample_w) = Ok cs
    /\ cs = body ++ [c]
    /\ Forall (fun b => kw_piped b = true /\ kw_bg b = false
                        /\ kw_out b = None) body
    /\ kw_piped c = false.
Proof.
  destruct (build_command_1 sample_E (Some "a.gz") (Some "out.gz") true false
              false false "wb" sample_w) as [[cs|e] w'] eqn:H;
    [| vm_compute in H; discriminate H].
  destruct (build_command_1_writing_stage sample_E _ _ _ _ _ _ _ _ _ _ H)
    as (body & c & Hcs & Hb & Hp & _).
  exists cs, body, c. repeat split; assumption.
Defined.


Lemma plan_follows_inputs_witness :
  exists plan,
    fst (build_command sample_E (Some 2) None true false false sample_w)
    = Ok plan
    /\ arguments <$> decode_stages plan = [["a.gz"]; ["b.txt"]]
    /\ program <$> encode_stages_of plan = ["gzip"; "gzip"].
Proof.
  destruct (build_command sample_E (Some 2) None true false false sample_w)
    as [[plan|e] w'] eqn:H; [| vm_compute in H; discriminate H].
  pose proof (plan_follows_inputs sample_E _ _ _ _ _ _ _ _ H) as Hp.
  cbv zeta in Hp. destruct Hp as [H1 H2].
  exists plan. split; [reflexivity |].
  split; [rewrite H1 | rewrite H2]; vm_compute; reflexivity.
Defined.

Lemma run_sh_commands_pipes_witness :
  exists rc,
    fst (run_sh_commands sample_E ([cat_notes] ++ [zcat_a] ++ [gzip_c])
                         sample_w) = Ok (Some rc)
    /\ pipe_chain rc = [zcat_a; gzip_c].
Proof.
  destruct (run_sh_commands sample_E ([cat_notes] ++ [zcat_a] ++ [gzip_c])
              sample_w) as [[r|e] w'] eqn:H;
    [| vm_compute in H; discriminate H].
  assert (Hpre : [cat_notes] = []
                 \/ exists p, last [cat_notes] = Some p
                              /\ kw_piped p || kw_bg p = false)
    by (right; exists cat_notes; split; reflexivity).
  assert (Hbody : Forall (fun b => kw_piped b || kw_bg b = true) [zcat_a])
    by (repeat constructor).
  destruct (run_sh_commands_pipes sample_E _ _ _ _ _ _ Hpre Hbody H)
    as (rc & -> & Hc).
  exists rc. split; [reflexivity | exact Hc].
Defined.

Lemma pipelines_are_separate_witness :
  exists rc,
    fst (build_command_1 sample_E (Some "a.gz") None true false false false
                         "ab" sample_w) = Ok [zcat_a; gzip_c]
    /\ fst (run_sh_commands sample_E ([cat_notes] ++ [zcat_a; gzip_c])
                            sample_w) = Ok (Some rc)
    /\ pipe_chain rc = [zcat_a; gzip_c]
    /\ running_exit_code rc = 0%Z.
Proof.
  assert (Hb : build_command_1 sample_E (Some "a.gz") None true false false
                 false "ab" sample_w = (Ok [zcat_a; gzip_c], sample_w))
    by (vm_compute; reflexivity).
  destruct (run_sh_commands sample_E ([cat_notes] ++ [zcat_a; gzip_c])
              sample_w) as [[r|e] w'] eqn:H;
    [| vm_compute in H; discriminate H].
  assert (Hpre : [cat_notes] = []
                 \/ exists p, last [cat_notes] = Some p
                              /\ kw_piped p || kw_bg p = false)
    by (right; exists cat_notes; split; reflexivity).
  destruct (pipelines_are_separate sample_E _ _ _ _ _ _ _ _ _ _ _ _ _
              Hb Hpre H) as (rc & -> & Hc & Hz).
  exists rc. split; [rewrite Hb; reflexivity |].
  split; [reflexivity |]. split; assumption.
Defined.

Lemma build_command_1_buffers_witness :
  exists cs body c,
    fst (build_command_1 sample_E (Some "notes.txt") None false false false
                         false "wb" sample_w) = Ok cs
    /\ cs = body ++ [c]
    /\ kw_out_bufsize c = Some (2 ^ 16)%Z.
Proof.
  destruct (build_command_1 sample_E (Some "notes.txt") None false false false
              false "wb" sample_w) as [[cs|e] w'] eqn:H;
    [| vm_compute in H; discriminate H].
  destruct (build_command_1_buffers sample_E _ _ _ _ _ _ _ _ _ _ H)
    as (body & c & Hcs & Hb & _).
  exists cs, body, c. split; [reflexivity |]. split; [exact Hcs |].
  exact Hb.
Defined.
